(** * The chat-room connection manager of the WebSocket example

    Shallow embedding of [ConnectionManager]
    (agniapi-framework/examples/websocket_example.py, lines 24-127) and
    the properties of its membership state.

    Modelling conventions.
    - A [WebSocket] object is compared by identity ([in], [==] and
      [list.remove] on objects without [__eq__]); it is modelled by a
      natural number, its identity.
    - [active_connections] is a Python list: order and duplicates are kept.
    - [rooms] is a Python dict from str to list: an association list in
      insertion order, read with [PyDict.get], written with [PyDict.set].
    - [connection.send_json] belongs to the framework's WebSocket class,
      which is not part of the example; whether a send raises is decided
      by a parameter that may depend on the whole history of sends.
    - [websocket.accept] is the handshake of the framework; it does not
      touch the manager and is taken to succeed.
    - [asyncio.create_task] queues a coroutine on the event loop: the
      world carries the queue of pending tasks, and [tick] runs the oldest.
    - [broadcast_to_room], [broadcast_to_all], [connect] and [tick] are
      a call during whose sends no other task runs.  The loops of the
      source walk the live list across [await send_json]: what the other
      tasks do meanwhile is the schedule of [send_each_live] and of the
      calls built on it ([broadcast_to_room_live] and the like), which
      are the former when the schedule is empty. *)

From Stdlib Require Import List String Arith ZArith Bool Lia Permutation.
Import ListNotations.

Set Implicit Arguments.

(** ** Python lists *)

Module PyList.
Section Ops.
Variable A : Type.
Variable eq_dec : forall x y : A, {x = y} + {x <> y}.

(** [x in l] *)
Definition contains (x : A) (l : list A) : bool :=
  if in_dec eq_dec x l then true else false.

(** [l.remove(x)]: drops the first item equal to [x].  Python raises
    ValueError when there is none; every call of the manager is guarded
    by [x in l], and the function leaves such a list as it is. *)
Fixpoint remove (x : A) (l : list A) : list A :=
  match l with
  | [] => []
  | y :: l' => if eq_dec x y then l' else y :: remove x l'
  end.
End Ops.
End PyList.

(** ** Python dicts with string keys, in insertion order *)

Module PyDict.
Section Ops.
Variable V : Type.

Definition dict := list (string * V).

(** [d.get(k)] *)
Fixpoint get (k : string) (d : dict) : option V :=
  match d with
  | [] => None
  | (k', v) :: d' => if String.eqb k k' then Some v else get k d'
  end.

(** [k in d] *)
Definition contains (k : string) (d : dict) : bool :=
  match get k d with Some _ => true | None => false end.

(** [d[k] = v]: an existing key keeps its place, a new key goes last. *)
Fixpoint set (k : string) (v : V) (d : dict) : dict :=
  match d with
  | [] => [(k, v)]
  | (k', v') :: d' =>
      if String.eqb k k' then (k', v) :: d' else (k', v') :: set k v d'
  end.

Definition keys (d : dict) : list string := map fst d.
End Ops.
End PyDict.

(** ** Data model *)

Definition WebSocket := nat.

Definition ws_eq_dec : forall x y : WebSocket, {x = y} + {x <> y} := Nat.eq_dec.

(** The dicts handed to [send_json]: the two notifications the manager
    builds itself, and whatever its callers pass in. *)
Inductive message : Type :=
| user_joined (timestamp room : string) (connections : nat)
| user_left (timestamp room : string) (connections : nat)
| payload (body : string).

(** One call of [send_json] and how it ended. *)
Record attempt : Type := mkAttempt {
  target : WebSocket;
  content : message;
  delivered : bool
}.

(** The coroutine [broadcast_to_room(room, message)] given to
    [asyncio.create_task]. *)
Inductive task : Type :=
| broadcast_task (room : string) (m : message).

Record ConnectionManager : Type := mkManager {
  active_connections : list WebSocket;
  rooms : PyDict.dict (list WebSocket)
}.

(** The manager together with what lies around it: the record of all
    sends so far and the event loop's queue. *)
Record World : Type := mkWorld {
  manager : ConnectionManager;
  sent : list attempt;
  pending : list task
}.

Definition empty_manager : ConnectionManager := mkManager [] [].
Definition empty_world : World := mkWorld empty_manager [] [].

(** [self.rooms.get(room, [])] *)
Definition members_of (room : string) (m : ConnectionManager) : list WebSocket :=
  match PyDict.get room (rooms m) with Some l => l | None => [] end.

(** What a call gives back to its caller. *)
Inductive outcome : Type :=
| Returned
| Raised.

(** The dict built by [get_room_info], keys "room", "connections", "active". *)
Record room_info : Type := mkRoomInfo {
  info_room : string;
  info_connections : nat;
  info_active : bool
}.

(** The dict built by [get_stats]. *)
Record stats : Type := mkStats {
  total_connections : nat;
  stats_rooms : PyDict.dict nat;
  stats_timestamp : string
}.

(** ** Operations *)

(** The loop of [disconnect] over [self.rooms.items()]: the member lists
    are changed in place, and one notification is created for each room
    that held the socket, carrying the length after the removal. *)
Fixpoint disconnect_rooms (now : string) (websocket : WebSocket)
    (d : PyDict.dict (list WebSocket))
  : PyDict.dict (list WebSocket) * list task :=
  match d with
  | [] => ([], [])
  | (room, connections) :: d' =>
      let (d'', spawned) := disconnect_rooms now websocket d' in
      if PyList.contains ws_eq_dec websocket connections then
        let connections' := PyList.remove ws_eq_dec websocket connections in
        ((room, connections') :: d'',
         broadcast_task room (user_left now room (List.length connections')) :: spawned)
      else ((room, connections) :: d'', spawned)
  end.

Section Hub.
(** The reading of [datetime.now().isoformat()]. *)
Variable now : string.

(** Does [connection.send_json(message)] raise, after the given history
    of sends? *)
Variable send_json_raises : list attempt -> WebSocket -> message -> bool.

Definition disconnect (websocket : WebSocket) (w : World) : World :=
  let m := manager w in
  let active :=
    if PyList.contains ws_eq_dec websocket (active_connections m)
    then PyList.remove ws_eq_dec websocket (active_connections m)
    else active_connections m in
  let (rooms', spawned) := disconnect_rooms now websocket (rooms m) in
  mkWorld (mkManager active rooms') (sent w) (pending w ++ spawned).

(** [await connection.send_json(message)]: [true] when it raised. *)
Definition send_json (connection : WebSocket) (m : message) (w : World)
  : bool * World :=
  let raised := send_json_raises (sent w) connection m in
  (raised,
   mkWorld (manager w)
           (sent w ++ [mkAttempt connection m (negb raised)])
           (pending w)).

Definition send_personal_message (m : message) (websocket : WebSocket)
    (w : World) : outcome * World :=
  match send_json websocket m w with
  | (false, w') => (Returned, w')
  | (true, w') => (Returned, disconnect websocket w')
  end.

(** [connection == exclude], where [exclude] may be None. *)
Definition is_excluded (connection : WebSocket) (exclude : option WebSocket)
  : bool :=
  match exclude with
  | Some e => Nat.eqb connection e
  | None => false
  end.

(** The first loop of [broadcast_to_room], when no other task runs during
    its sends: one send for each member that is not excluded, the failed
    ones collected in order.  [send_each_live] is the loop among the
    other tasks. *)
Fixpoint send_each (members : list WebSocket) (m : message)
    (exclude : option WebSocket) (disconnected : list WebSocket) (w : World)
  : list WebSocket * World :=
  match members with
  | [] => (disconnected, w)
  | connection :: rest =>
      if is_excluded connection exclude
      then send_each rest m exclude disconnected w
      else
        match send_json connection m w with
        | (false, w') => send_each rest m exclude disconnected w'
        | (true, w') =>
            send_each rest m exclude (disconnected ++ [connection]) w'
        end
  end.

(** The second loop: [for connection in disconnected: self.disconnect(connection)]. *)
Definition disconnect_all (disconnected : list WebSocket) (w : World) : World :=
  fold_left (fun w' connection => disconnect connection w') disconnected w.

Definition broadcast_to_room (room : string) (m : message)
    (exclude : option WebSocket) (w : World) : World :=
  match PyDict.get room (rooms (manager w)) with
  | None => w
  | Some members =>
      let (disconnected, w') := send_each members m exclude [] w in
      disconnect_all disconnected w'
  end.

Definition broadcast_to_all (m : message) (w : World) : World :=
  let (disconnected, w') :=
    send_each (active_connections (manager w)) m None [] w in
  disconnect_all disconnected w'.

Definition connect (websocket : WebSocket) (room : string) (w : World) : World :=
  let m := manager w in
  let active := active_connections m ++ [websocket] in
  let rooms1 :=
    if PyDict.contains room (rooms m) then rooms m
    else PyDict.set room [] (rooms m) in
  let rooms2 :=
    PyDict.set room (members_of room (mkManager active rooms1) ++ [websocket])
               rooms1 in
  let m' := mkManager active rooms2 in
  broadcast_to_room room
    (user_joined now room (List.length (members_of room m')))
    (Some websocket)
    (mkWorld m' (sent w) (pending w)).

Definition get_room_info (room : string) (w : World) : room_info * World :=
  (mkRoomInfo room
              (List.length (members_of room (manager w)))
              (PyDict.contains room (rooms (manager w))),
   w).

Definition get_stats (w : World) : stats * World :=
  (mkStats (List.length (active_connections (manager w)))
           (map (fun kv => (fst kv, List.length (snd kv))) (rooms (manager w)))
           now,
   w).

(** ** The event loop and sequences of calls *)

Definition run_task (t : task) (w : World) : World :=
  match t with
  | broadcast_task room m => broadcast_to_room room m None w
  end.

(** The event loop runs the oldest pending task, if there is one. *)
Definition tick (w : World) : World :=
  match pending w with
  | [] => w
  | t :: rest => run_task t (mkWorld (manager w) (sent w) rest)
  end.

Inductive call : Type :=
| Connect (websocket : WebSocket) (room : string)
| Disconnect (websocket : WebSocket)
| SendPersonalMessage (m : message) (websocket : WebSocket)
| BroadcastToRoom (room : string) (m : message) (exclude : option WebSocket)
| BroadcastToAll (m : message)
| GetRoomInfo (room : string)
| GetStats
| Tick.

Definition step (w : World) (c : call) : World :=
  match c with
  | Connect websocket room => connect websocket room w
  | Disconnect websocket => disconnect websocket w
  | SendPersonalMessage m websocket => snd (send_personal_message m websocket w)
  | BroadcastToRoom room m exclude => broadcast_to_room room m exclude w
  | BroadcastToAll m => broadcast_to_all m w
  | GetRoomInfo room => snd (get_room_info room w)
  | GetStats => snd (get_stats w)
  | Tick => tick w
  end.

Definition run (calls : list call) (w : World) : World :=
  fold_left step calls w.


(** No socket is connected while the manager still holds it. *)
Fixpoint joins_fresh (calls : list call) (w : World) : bool :=
  match calls with
  | [] => true
  | c :: rest =>
      match c with
      | Connect websocket _ =>
          negb (PyList.contains ws_eq_dec websocket
                                (active_connections (manager w)))
      | _ => true
      end && joins_fresh rest (step w c)
  end.

End Hub.

(** ** Notions used in the statements *)

(** What [disconnect] does to the membership state: one [list.remove] on
    the registry and on every member list. *)
Definition scrub (websocket : WebSocket) (m : ConnectionManager)
  : ConnectionManager :=
  mkManager
    (PyList.remove ws_eq_dec websocket (active_connections m))
    (map (fun kv => (fst kv, PyList.remove ws_eq_dec websocket (snd kv)))
         (rooms m)).

(** The sockets a broadcast addresses: the members apart from the excluded one. *)
Definition targets (members : list WebSocket) (exclude : option WebSocket)
  : list WebSocket :=
  filter (fun c => negb (is_excluded c exclude)) members.

(** The sends made between two worlds. *)
Definition new_attempts (before after : World) : list attempt :=
  skipn (List.length (sent before)) (sent after).

(** The sockets whose send raised, and those that got the message. *)
Definition failed (l : list attempt) : list WebSocket :=
  map target (filter (fun a => negb (delivered a)) l).

Definition received (l : list attempt) : list WebSocket :=
  map target (filter delivered l).

(** Membership of a socket in the registry and in a room. *)
Definition in_registry (c : WebSocket) (m : ConnectionManager) : Prop :=
  In c (active_connections m).

Definition in_room (c : WebSocket) (room : string) (m : ConnectionManager) : Prop :=
  In c (members_of room m).

(** A socket that is nowhere in the manager. *)
Definition untracked (c : WebSocket) (m : ConnectionManager) : Prop :=
  ~ In c (active_connections m) /\
  forall room members, In (room, members) (rooms m) -> ~ In c members.

(** A socket that is at most once in the registry and in each member list. *)
Definition at_most_once (c : WebSocket) (m : ConnectionManager) : Prop :=
  count_occ ws_eq_dec (active_connections m) c <= 1 /\
  forall room members,
    In (room, members) (rooms m) -> count_occ ws_eq_dec members c <= 1.

(** No list of the manager holds a socket twice. *)
Definition duplicate_free (m : ConnectionManager) : Prop :=
  NoDup (active_connections m) /\
  forall room members, In (room, members) (rooms m) -> NoDup members.

(** Keeping the sockets that are not in [gone]. *)
Definition without (gone : list WebSocket) (l : list WebSocket) : list WebSocket :=
  filter (fun c => negb (PyList.contains ws_eq_dec c gone)) l.

(** How often a socket occurs in the member lists, all rooms together. *)
Fixpoint room_total (c : WebSocket) (d : PyDict.dict (list WebSocket)) : nat :=
  match d with
  | [] => 0
  | (_, members) :: d' => count_occ ws_eq_dec members c + room_total c d'
  end.

(** The sends to a list of sockets, one after the other, each decided by
    the history it finds. *)
Fixpoint outcomes (send_json_raises : list attempt -> WebSocket -> message -> bool)
    (history : list attempt) (to : list WebSocket) (m : message) : list attempt :=
  match to with
  | [] => []
  | c :: rest =>
      let a := mkAttempt c m (negb (send_json_raises history c m)) in
      a :: outcomes send_json_raises (history ++ [a]) rest m
  end.

(** The manager after the two appends of [connect], before its notification. *)
Definition joined (websocket : WebSocket) (room : string) (m : ConnectionManager)
  : ConnectionManager :=
  let active := active_connections m ++ [websocket] in
  let rooms1 :=
    if PyDict.contains room (rooms m) then rooms m
    else PyDict.set room [] (rooms m) in
  mkManager active
    (PyDict.set room (members_of room (mkManager active rooms1) ++ [websocket])
                rooms1).

(** [disconnect] for each socket of a list, on the membership state. *)
Definition scrub_all (gone : list WebSocket) (m : ConnectionManager)
  : ConnectionManager :=
  fold_left (fun m' c => scrub c m') gone m.

(** Every member of a room is in the registry, as often at least. *)
Definition rooms_within_registry (m : ConnectionManager) : Prop :=
  forall c room members,
    In (room, members) (rooms m) ->
    count_occ ws_eq_dec members c <= count_occ ws_eq_dec (active_connections m) c.

(** Registry and rooms hold the same sockets, each once. *)
Definition linked (m : ConnectionManager) : Prop :=
  NoDup (PyDict.keys (rooms m)) /\
  forall c,
    count_occ ws_eq_dec (active_connections m) c <= 1 /\
    room_total c (rooms m) = count_occ ws_eq_dec (active_connections m) c.

(** A broadcast to the sockets of [members]: the sends, then the cleanup. *)
Definition fan_out (now : string)
    (send_json_raises : list attempt -> WebSocket -> message -> bool)
    (members : list WebSocket) (m : message)
    (exclude : option WebSocket) (w : World) : World :=
  let atts := outcomes send_json_raises (sent w) (targets members exclude) m in
  disconnect_all now (failed atts)
                 (mkWorld (manager w) (sent w ++ atts) (pending w)).

(** [l.remove(c)] for each socket of a list. *)
Definition remove_all (gone : list WebSocket) (l : list WebSocket) : list WebSocket :=
  fold_left (fun l' c => PyList.remove ws_eq_dec c l') gone l.

(** The membership state a call starts its notification or cleanup from:
    [connect] appends first, every other call starts from the state it finds. *)
Definition after_join (c : call) (m : ConnectionManager) : ConnectionManager :=
  match c with
  | Connect websocket room => joined websocket room m
  | _ => m
  end.

(** The rooms before the second write of [connect]. *)
Definition rooms1 (room : string) (m : ConnectionManager)
  : PyDict.dict (list WebSocket) :=
  if PyDict.contains room (rooms m) then rooms m
  else PyDict.set room [] (rooms m).

(** ** Concrete scenarios *)

Module Scenario.

Definition clock : string := "2024-05-01T12:00:00".

Definition alice : WebSocket := 1.
Definition bob : WebSocket := 2.
Definition carol : WebSocket := 3.

Definition hello : message := payload "hello".

(** Every send goes through. *)
Definition all_alive : list attempt -> WebSocket -> message -> bool :=
  fun _ _ _ => false.

(** Every send raises. *)
Definition all_dead : list attempt -> WebSocket -> message -> bool :=
  fun _ _ _ => true.

(** The sends to one socket raise. *)
Definition dead (c : WebSocket) : list attempt -> WebSocket -> message -> bool :=
  fun _ c' _ => Nat.eqb c' c.

(** Alice, Bob and Carol join "general", in that order. *)
Definition three_in_general : World :=
  run clock all_alive
      [Connect alice "general"; Connect bob "general"; Connect carol "general"]
      empty_world.

(** Alice joins "general" twice. *)
Definition alice_twice : World :=
  run clock all_alive
      [Connect alice "general"; Connect alice "general"] empty_world.



(** Alice and Bob join "general", Bob leaves, Carol joins "random". *)
Definition come_and_go : list call :=
  [Connect alice "general"; Connect bob "general"; Disconnect bob;
   Connect carol "random"].

(** Alice joins "general" and leaves again. *)
Definition emptied_general : World :=
  run clock all_alive [Connect alice "general"; Disconnect alice] empty_world.

End Scenario.

(** ** Further notions *)

(** The rooms whose list holds a socket, in the order of the dict. *)
Definition rooms_holding (c : WebSocket) (d : PyDict.dict (list WebSocket))
  : PyDict.dict (list WebSocket) :=
  filter (fun kv => PyList.contains ws_eq_dec c (snd kv)) d.

(** The notification [disconnect] creates for a room that held the
    socket: the room's name and the length of its list after the removal. *)
Definition left_task (now : string) (kv : string * list WebSocket) : task :=
  broadcast_task (fst kv) (user_left now (fst kv) (pred (List.length (snd kv)))).

(** A socket none of whose sends raises. *)
Definition healthy (send_json_raises : list attempt -> WebSocket -> message -> bool)
    (x : WebSocket) : Prop :=
  forall h m, send_json_raises h x m = false.

(** The member lists of all rooms, one after the other. *)
Definition all_members (d : PyDict.dict (list WebSocket)) : list WebSocket :=
  List.concat (map snd d).

(** A call that names the socket itself: its [connect], or a message
    sent to it alone. *)
Definition addresses (x : WebSocket) (c : call) : bool :=
  match c with
  | Connect websocket _ => Nat.eqb websocket x
  | SendPersonalMessage _ websocket => Nat.eqb websocket x
  | _ => false
  end.

(** The event loop running its oldest task, [n] times over. *)
Fixpoint ticks (now : string)
    (send_json_raises : list attempt -> WebSocket -> message -> bool)
    (n : nat) (w : World) : World :=
  match n with
  | 0 => w
  | S k => ticks now send_json_raises k (tick now send_json_raises w)
  end.

(** A bound on the notifications still to come: the tasks that are
    queued, and two for each place a socket has in a room. *)
Definition backlog (w : World) : nat :=
  2 * List.length (all_members (rooms (manager w))) + List.length (pending w).

(** ** The endpoint of the chat rooms

    [websocket_endpoint] (lines 286-352) connects the socket and then
    serves what [receive_json] hands it, one message per pass of its
    loop.  What the client sent is a parsed JSON value.  The dicts the
    handler builds go to the manager as [payload], by their JSON text;
    the serialisation and Python's formatting of a value that is not a
    string are the interpreter's and are parameters here.  While the
    handler waits in [receive_json] other tasks run: they are part of
    what arrives. *)

Local Unset Elimination Schemes.

Inductive json : Type :=
| JNull
| JBool (b : bool)
| JInt (n : Z)
| JFloat (literal : string)
| JStr (s : string)
| JArr (items : list json)
| JObj (fields : PyDict.dict json).

Local Set Elimination Schemes.

(** [value == "..."] for a parsed value and a string literal. *)
Definition is_str (s : string) (v : json) : bool :=
  match v with
  | JStr s' => String.eqb s' s
  | _ => false
  end.

(** [data.get(key, default)] on a dict. *)
Definition get_or (key : string) (default : json) (fields : PyDict.dict json)
  : json :=
  match PyDict.get key fields with
  | Some v => v
  | None => default
  end.

(** The dict of [get_stats] as a JSON object. *)
Definition stats_dict (st : stats) : PyDict.dict json :=
  [("total_connections"%string, JInt (Z.of_nat (total_connections st)));
   ("rooms"%string,
    JObj (map (fun kv => (fst kv, JInt (Z.of_nat (snd kv)))) (stats_rooms st)));
   ("timestamp"%string, JStr (stats_timestamp st))].

(** What the handler is given while it runs. *)
Inductive arrival : Type :=
| Received (data : json)
| ReceiveFailed
| Meanwhile (c : call).

Section Endpoint.
Variable now : string.
Variable send_json_raises : list attempt -> WebSocket -> message -> bool.

(** [json.dumps] of a dict, and [str] of a value that is not a string. *)
Variable dumps : json -> string.
Variable py_str : json -> string.

Definition dict_message (d : PyDict.dict json) : message :=
  payload (dumps (JObj d)).

(** [f"{value}"] *)
Definition format_value (v : json) : string :=
  match v with
  | JStr s => s
  | _ => py_str v
  end.

Definition chat_message (room : string) (fields : PyDict.dict json) : message :=
  dict_message
    [("type"%string, JStr "chat");
     ("message"%string, get_or "message" (JStr "") fields);
     ("timestamp"%string, get_or "timestamp" (JStr now) fields);
     ("room"%string, JStr room)].

Definition pong_message (fields : PyDict.dict json) : message :=
  dict_message
    [("type"%string, JStr "pong");
     ("timestamp"%string, JStr now);
     ("original_timestamp"%string, get_or "timestamp" JNull fields)].

Definition broadcast_message (fields : PyDict.dict json) : message :=
  dict_message
    [("type"%string, JStr "admin_broadcast");
     ("message"%string, get_or "message" (JStr "") fields);
     ("timestamp"%string, JStr now)].

Definition error_message (text : string) : message :=
  dict_message
    [("type"%string, JStr "error");
     ("message"%string, JStr text);
     ("timestamp"%string, JStr now)].

(** One pass of the loop body, for the value [receive_json] returned.
    [data.get] raises AttributeError on a value that is not a dict. *)
Definition handle_message (websocket : WebSocket) (room : string)
    (data : json) (w : World) : outcome * World :=
  match data with
  | JObj fields =>
      let message_type := get_or "type" (JStr "unknown") fields in
      if is_str "chat" message_type then
        (Returned,
         broadcast_to_room now send_json_raises room
                           (chat_message room fields) None w)
      else if is_str "ping" message_type then
        send_personal_message now send_json_raises
                              (pong_message fields) websocket w
      else if is_str "get_stats" message_type then
        let (st, w1) := get_stats now w in
        let stats := PyDict.set "type" (JStr "stats") (stats_dict st) in
        send_personal_message now send_json_raises
                              (dict_message stats) websocket w1
      else if is_str "broadcast" message_type then
        if is_str "admin123" (get_or "admin_key" JNull fields) then
          (Returned,
           broadcast_to_all now send_json_raises (broadcast_message fields) w)
        else
          send_personal_message now send_json_raises
            (error_message "Unauthorized broadcast attempt") websocket w
      else
        send_personal_message now send_json_raises
          (error_message
             (String.append "Unknown message type: " (format_value message_type)))
          websocket w
  | _ => (Raised, w)
  end.

(** The call of the manager that a pass of the loop body makes for a dict. *)
Definition dispatch (websocket : WebSocket) (room : string)
    (fields : PyDict.dict json) (w : World) : call :=
  let message_type := get_or "type" (JStr "unknown") fields in
  if is_str "chat" message_type then
    BroadcastToRoom room (chat_message room fields) None
  else if is_str "ping" message_type then
    SendPersonalMessage (pong_message fields) websocket
  else if is_str "get_stats" message_type then
    SendPersonalMessage
      (dict_message
         (PyDict.set "type" (JStr "stats") (stats_dict (fst (get_stats now w)))))
      websocket
  else if is_str "broadcast" message_type then
    if is_str "admin123" (get_or "admin_key" JNull fields) then
      BroadcastToAll (broadcast_message fields)
    else
      SendPersonalMessage (error_message "Unauthorized broadcast attempt")
                          websocket
  else
    SendPersonalMessage
      (error_message
         (String.append "Unknown message type: " (format_value message_type)))
      websocket.

(** The loop of the handler over what arrives.  The result says whether
    the handler has returned: it returns, after [disconnect], when
    [receive_json] or the loop body raised (WebSocketDisconnect or any
    Exception); otherwise it is still waiting. *)
Fixpoint receive_loop (websocket : WebSocket) (room : string)
    (arrivals : list arrival) (w : World) : bool * World :=
  match arrivals with
  | [] => (false, w)
  | Received data :: rest =>
      match handle_message websocket room data w with
      | (Returned, w') => receive_loop websocket room rest w'
      | (Raised, w') => (true, disconnect now websocket w')
      end
  | ReceiveFailed :: _ => (true, disconnect now websocket w)
  | Meanwhile c :: rest =>
      receive_loop websocket room rest (step now send_json_raises w c)
  end.

Definition websocket_endpoint (websocket : WebSocket) (room : string)
    (arrivals : list arrival) (w : World) : bool * World :=
  receive_loop websocket room arrivals
               (connect now send_json_raises websocket room w).

End Endpoint.

(** The arrival ends the handler: a failed receive, or a value that is
    not a dict. *)
Definition ends_handler (a : arrival) : bool :=
  match a with
  | ReceiveFailed => true
  | Received (JObj _) => false
  | Received _ => true
  | Meanwhile _ => false
  end.

(** No other task connects the socket again. *)
Definition no_rejoin (x : WebSocket) (arrivals : list arrival) : bool :=
  forallb (fun a => match a with
                    | Meanwhile (Connect websocket _) => negb (Nat.eqb websocket x)
                    | _ => true
                    end) arrivals.

(** The message is a chat message, or a broadcast with the admin key. *)
Definition is_chat (fields : PyDict.dict json) : bool :=
  is_str "chat" (get_or "type" (JStr "unknown") fields).

Definition is_admin_broadcast (fields : PyDict.dict json) : bool :=
  is_str "broadcast" (get_or "type" (JStr "unknown") fields) &&
  is_str "admin123" (get_or "admin_key" JNull fields).

Module Client.

(** Stand-ins for the serialisation, for running the examples. *)
Definition dumps : json -> string := fun _ => "{}"%string.
Definition py_str : json -> string := fun _ => "?"%string.

Definition says_hi : json :=
  JObj [("type"%string, JStr "chat"); ("message"%string, JStr "hi")].

Definition ping : json := JObj [("type"%string, JStr "ping")].

Definition forged_broadcast : json :=
  JObj [("type"%string, JStr "broadcast"); ("admin_key"%string, JStr "guess");
        ("message"%string, JStr "all yours")].

(** Alice is in "general" when Bob's handler starts. *)
Definition lobby : World :=
  run Scenario.clock Scenario.all_alive [Connect Scenario.alice "general"]
      empty_world.

(** Bob chats, Carol joins meanwhile, Bob sends a JSON array. *)
Definition bob_session : list arrival :=
  [Received says_hi; Meanwhile (Connect Scenario.carol "general");
   Received (JArr []); Received says_hi].

End Client.

(** ** The echo and the notification endpoints

    [echo_websocket] (lines 355-374) and [notifications_websocket]
    (lines 377-408) do not use the manager: each serves its own socket
    until a receive or a send raises.  The sleep between two
    notifications is not modelled; [rounds] counts the sleeps that have
    passed. *)

Section Streams.
Variable now : string.
Variable send_json_raises : list attempt -> WebSocket -> message -> bool.
Variable dumps : json -> string.
Variable py_str : json -> string.

Definition echo_response (data : string) : message :=
  dict_message dumps
    [("type"%string, JStr "echo");
     ("original"%string, JStr data);
     ("timestamp"%string, JStr now)].

(** The loop of [echo_websocket]; [None] is a [receive_text] that raised. *)
Fixpoint echo_websocket (websocket : WebSocket) (received : list (option string))
    (w : World) : World :=
  match received with
  | [] => w
  | None :: _ => w
  | Some data :: rest =>
      match send_json send_json_raises websocket (echo_response data) w with
      | (true, w') => w'
      | (false, w') => echo_websocket websocket rest w'
      end
  end.

Definition welcome : message :=
  dict_message dumps
    [("type"%string, JStr "notification");
     ("message"%string, JStr "Connected to notifications stream");
     ("timestamp"%string, JStr now)].

Definition notification (counter : nat) : message :=
  dict_message dumps
    [("type"%string, JStr "notification");
     ("message"%string,
      JStr (String.append "Periodic notification #"
              (format_value py_str (JInt (Z.of_nat counter)))));
     ("timestamp"%string, JStr now);
     ("counter"%string, JInt (Z.of_nat counter))].

(** The loop of [notifications_websocket], for [rounds] sleeps. *)
Fixpoint periodic (websocket : WebSocket) (rounds : nat) (counter : nat)
    (w : World) : World :=
  match rounds with
  | 0 => w
  | S k =>
      let counter' := counter + 1 in
      match send_json send_json_raises websocket (notification counter') w with
      | (true, w') => w'
      | (false, w') => periodic websocket k counter' w'
      end
  end.

Definition notifications_websocket (websocket : WebSocket) (rounds : nat)
    (w : World) : World :=
  match send_json send_json_raises websocket welcome w with
  | (true, w') => w'
  | (false, w') => periodic websocket rounds 0 w'
  end.

(** The sends of a list of messages to one socket, up to and with the
    first that raises. *)
Fixpoint sends_until_failure (history : list attempt) (websocket : WebSocket)
    (msgs : list message) : list attempt :=
  match msgs with
  | [] => []
  | m :: rest =>
      let raised := send_json_raises history websocket m in
      let a := mkAttempt websocket m (negb raised) in
      a :: (if raised then []
            else sends_until_failure (history ++ [a]) websocket rest)
  end.

End Streams.

(** The texts received before the first failed receive. *)
Fixpoint texts_received (received : list (option string)) : list string :=
  match received with
  | Some data :: rest => data :: texts_received rest
  | _ => []
  end.

(** ** The loops among the other tasks

    [for connection in self.rooms[room]] and
    [for connection in self.active_connections] hold the list object and
    an index; every pass reads the list as it then is.  Between the start
    of an [await connection.send_json(message)] and the next pass the
    other tasks run.  What they do to the manager comes in steps that
    have no await inside: the two appends of a [connect], a
    [disconnect], one send, the start of a queued task. *)

Inductive event : Type :=
| Joins (websocket : WebSocket) (room : string)
| Leaves (websocket : WebSocket)
| Sends (websocket : WebSocket) (m : message)
| Starts.

(** What a loop did: the sockets whose send raised, in order; the sends
    it made itself; the list as each pass found it; the world it ends in. *)
Record passage : Type := mkPassage {
  failures : list WebSocket;
  own : list attempt;
  readings : list (list WebSocket);
  after : World
}.

(** The first socket of a list that is not excluded, and how many are
    skipped before it: the passes that end in [continue] have no await. *)
Fixpoint first_target (l : list WebSocket) (exclude : option WebSocket)
  : option (nat * WebSocket) :=
  match l with
  | [] => None
  | x :: l' =>
      if is_excluded x exclude
      then match first_target l' exclude with
           | Some (k, c) => Some (S k, c)
           | None => None
           end
      else Some (0, x)
  end.

Section Live.
Variable now : string.
Variable send_json_raises : list attempt -> WebSocket -> message -> bool.

Definition occur (w : World) (e : event) : World :=
  match e with
  | Joins websocket room =>
      mkWorld (joined websocket room (manager w)) (sent w) (pending w)
  | Leaves websocket => disconnect now websocket w
  | Sends websocket m => snd (send_json send_json_raises websocket m w)
  | Starts => mkWorld (manager w) (sent w) (tl (pending w))
  end.

Definition occurs (during : list event) (w : World) : World :=
  fold_left occur during w.

(** The first loop of a broadcast over the live list [read]: the pass at
    index [i], with [schedule] giving what the other tasks do during each
    of the sends; when the schedule is used up the loop runs alone. *)
Fixpoint send_each_live (read : ConnectionManager -> list WebSocket)
    (schedule : list (list event)) (i : nat) (m : message)
    (exclude : option WebSocket) (w : World) : passage :=
  match schedule with
  | [] =>
      let l := read (manager w) in
      let (disconnected, w') :=
        send_each send_json_raises (skipn i l) m exclude [] w in
      mkPassage disconnected (new_attempts w w') [l] w'
  | during :: later =>
      let l := read (manager w) in
      match first_target (skipn i l) exclude with
      | None => mkPassage [] [] [l] w
      | Some (k, connection) =>
          let (raised, w1) := send_json send_json_raises connection m w in
          let p := send_each_live read later (S (i + k)) m exclude
                                  (occurs during w1) in
          mkPassage (if raised then connection :: failures p else failures p)
                    (mkAttempt connection m (negb raised) :: own p)
                    (l :: readings p)
                    (after p)
      end
  end.

(** The second loop. *)
Definition cleanup (p : passage) : World :=
  disconnect_all now (failures p) (after p).

Definition room_passage (schedule : list (list event)) (room : string)
    (m : message) (exclude : option WebSocket) (w : World) : passage :=
  match PyDict.get room (rooms (manager w)) with
  | None => mkPassage [] [] [] w
  | Some _ => send_each_live (members_of room) schedule 0 m exclude w
  end.

Definition broadcast_to_room_live (schedule : list (list event))
    (room : string) (m : message) (exclude : option WebSocket) (w : World)
  : World :=
  cleanup (room_passage schedule room m exclude w).

Definition all_passage (schedule : list (list event)) (m : message)
    (w : World) : passage :=
  send_each_live active_connections schedule 0 m None w.

Definition broadcast_to_all_live (schedule : list (list event))
    (m : message) (w : World) : World :=
  cleanup (all_passage schedule m w).

Definition connect_passage (schedule : list (list event))
    (websocket : WebSocket) (room : string) (w : World) : passage :=
  let m' := joined websocket room (manager w) in
  room_passage schedule room
    (user_joined now room (List.length (members_of room m')))
    (Some websocket)
    (mkWorld m' (sent w) (pending w)).

Definition connect_live (schedule : list (list event))
    (websocket : WebSocket) (room : string) (w : World) : World :=
  cleanup (connect_passage schedule websocket room w).

Definition tick_passage (schedule : list (list event)) (w : World) : passage :=
  match pending w with
  | [] => mkPassage [] [] [] w
  | broadcast_task room m :: rest =>
      room_passage schedule room m None (mkWorld (manager w) (sent w) rest)
  end.

Definition tick_live (schedule : list (list event)) (w : World) : World :=
  cleanup (tick_passage schedule w).

End Live.

Section LiveEndpoint.
Variable now : string.
Variable send_json_raises : list attempt -> WebSocket -> message -> bool.
Variable dumps : json -> string.
Variable py_str : json -> string.

(** One pass of the loop body of [websocket_endpoint], with what the
    other tasks do during the sends of its broadcast. *)
Definition handle_message_live (schedule : list (list event))
    (websocket : WebSocket) (room : string) (data : json) (w : World)
  : outcome * World :=
  match data with
  | JObj fields =>
      let message_type := get_or "type" (JStr "unknown") fields in
      if is_str "chat" message_type then
        (Returned,
         broadcast_to_room_live now send_json_raises schedule room
                                (chat_message now dumps room fields) None w)
      else if is_str "ping" message_type then
        send_personal_message now send_json_raises
                              (pong_message now dumps fields) websocket w
      else if is_str "get_stats" message_type then
        let (st, w1) := get_stats now w in
        let stats := PyDict.set "type" (JStr "stats") (stats_dict st) in
        send_personal_message now send_json_raises
                              (dict_message dumps stats) websocket w1
      else if is_str "broadcast" message_type then
        if is_str "admin123" (get_or "admin_key" JNull fields) then
          (Returned,
           broadcast_to_all_live now send_json_raises schedule
                                 (broadcast_message now dumps fields) w)
        else
          send_personal_message now send_json_raises
            (error_message now dumps "Unauthorized broadcast attempt")
            websocket w
      else
        send_personal_message now send_json_raises
          (error_message now dumps
             (String.append "Unknown message type: "
                            (format_value py_str message_type)))
          websocket w
  | _ => (Raised, w)
  end.

End LiveEndpoint.

(** Every pass found the list as it was at the start. *)
Definition steady (snapshot : list WebSocket) (p : passage) : Prop :=
  Forall (fun l => l = snapshot) (readings p).

(** Every pass found the list beginning with what it held at the start:
    nothing was taken out of it, sockets may have been appended. *)
Definition none_removed (snapshot : list WebSocket) (p : passage) : Prop :=
  Forall (fun l => exists more, l = snapshot ++ more) (readings p).

Module Race.

(** Alice's handler disconnects her while the broadcast awaits the send
    to her. *)
Definition alice_leaves : list (list event) := [[Leaves Scenario.alice]].


(** Another task sends to Carol and a socket of no room leaves, during
    the first and the second send. *)
Definition bystanders : list (list event) :=
  [[Sends Scenario.carol Scenario.hello]; [Leaves 9]; []].

End Race.

(** * Properties *)

(** ** Lists *)

Module PyListFacts.
Section Facts.
Variable A : Type.
Variable eq_dec : forall x y : A, {x = y} + {x <> y}.

Lemma contains_In (x : A) (l : list A) :
  PyList.contains eq_dec x l = true <-> In x l.
Proof.
  unfold PyList.contains. destruct (in_dec eq_dec x l); split; intros; try easy.
Qed.

Lemma contains_false (x : A) (l : list A) :
  PyList.contains eq_dec x l = false <-> ~ In x l.
Proof.
  unfold PyList.contains. destruct (in_dec eq_dec x l); split; intros; try easy.
Qed.

Lemma remove_absent (x : A) (l : list A) :
  ~ In x l -> PyList.remove eq_dec x l = l.
Proof.
  induction l as [|y l IH]; simpl; intros H; [reflexivity|].
  destruct (eq_dec x y) as [->|Hne].
  - exfalso. apply H. now left.
  - f_equal. apply IH. intros Hin. apply H. now right.
Qed.

(** The guarded removal of the source is the removal itself. *)
Lemma guarded_remove (x : A) (l : list A) :
  (if PyList.contains eq_dec x l then PyList.remove eq_dec x l else l)
  = PyList.remove eq_dec x l.
Proof.
  destruct (PyList.contains eq_dec x l) eqn:E; [reflexivity|].
  symmetry. apply remove_absent. now apply contains_false.
Qed.

Lemma count_remove_same (x : A) (l : list A) :
  count_occ eq_dec (PyList.remove eq_dec x l) x = pred (count_occ eq_dec l x).
Proof.
  induction l as [|y l IH]; simpl; [reflexivity|].
  destruct (eq_dec x y) as [->|Hne].
  - destruct (eq_dec y y); [reflexivity|congruence].
  - simpl. destruct (eq_dec y x); [congruence|exact IH].
Qed.

Lemma count_remove_other (x y : A) (l : list A) :
  x <> y ->
  count_occ eq_dec (PyList.remove eq_dec x l) y = count_occ eq_dec l y.
Proof.
  intros Hxy. induction l as [|z l IH]; simpl; [reflexivity|].
  destruct (eq_dec x z) as [->|Hne].
  - destruct (eq_dec z y); [congruence|reflexivity].
  - simpl. destruct (eq_dec z y); [now rewrite IH|exact IH].
Qed.

Lemma In_remove (x y : A) (l : list A) :
  In y (PyList.remove eq_dec x l) -> In y l.
Proof.
  induction l as [|z l IH]; simpl; [easy|].
  destruct (eq_dec x z); simpl; intuition.
Qed.

Lemma In_remove_other (x y : A) (l : list A) :
  x <> y -> In y l -> In y (PyList.remove eq_dec x l).
Proof.
  intros Hxy. induction l as [|z l IH]; simpl; [easy|].
  destruct (eq_dec x z) as [->|Hne]; simpl; intuition congruence.
Qed.

(** An item that occurs at most once is gone after one removal. *)
Lemma remove_once_gone (x : A) (l : list A) :
  count_occ eq_dec l x <= 1 -> ~ In x (PyList.remove eq_dec x l).
Proof.
  intros H. apply (count_occ_not_In eq_dec).
  rewrite count_remove_same. lia.
Qed.

Lemma remove_twice (x : A) (l : list A) :
  count_occ eq_dec l x <= 1 ->
  PyList.remove eq_dec x (PyList.remove eq_dec x l) = PyList.remove eq_dec x l.
Proof.
  intros H. apply remove_absent. now apply remove_once_gone.
Qed.

Lemma NoDup_remove (x : A) (l : list A) :
  NoDup l -> NoDup (PyList.remove eq_dec x l).
Proof.
  induction 1 as [|y l Hy Hl IH]; simpl; [constructor|].
  destruct (eq_dec x y); [assumption|].
  constructor; [|assumption].
  intros Hin. apply Hy. eapply In_remove; eassumption.
Qed.

(** On a list without duplicates, removing is filtering. *)
Lemma remove_filter (x : A) (l : list A) :
  NoDup l ->
  PyList.remove eq_dec x l
  = filter (fun y => if eq_dec x y then false else true) l.
Proof.
  induction 1 as [|y l Hy Hl IH]; simpl; [reflexivity|].
  destruct (eq_dec x y) as [->|Hne].
  - symmetry. apply forallb_filter_id. apply forallb_forall.
    intros z Hz. destruct (eq_dec y z); [congruence|reflexivity].
  - now rewrite IH.
Qed.
End Facts.
End PyListFacts.

(** ** Dicts *)

Module PyDictFacts.
Section Facts.
Variable V : Type.

Lemma contains_keys (k : string) (d : PyDict.dict V) :
  PyDict.contains k d = true <-> In k (PyDict.keys d).
Proof.
  unfold PyDict.contains. induction d as [|[k' v] d IH]; simpl; [easy|].
  destruct (String.eqb_spec k k') as [->|Hne].
  - intuition.
  - rewrite IH. intuition congruence.
Qed.

Lemma get_set_same (k : string) (v : V) (d : PyDict.dict V) :
  PyDict.get k (PyDict.set k v d) = Some v.
Proof.
  induction d as [|[k' v'] d IH]; simpl.
  - now rewrite String.eqb_refl.
  - destruct (String.eqb_spec k k') as [->|Hne]; simpl.
    + now rewrite String.eqb_refl.
    + apply String.eqb_neq in Hne. now rewrite Hne.
Qed.

Lemma get_set_other (k k0 : string) (v : V) (d : PyDict.dict V) :
  k0 <> k -> PyDict.get k0 (PyDict.set k v d) = PyDict.get k0 d.
Proof.
  intros Hne. induction d as [|[k' v'] d IH]; simpl.
  - apply String.eqb_neq in Hne. now rewrite Hne.
  - destruct (String.eqb_spec k k') as [->|Hne']; simpl.
    + apply String.eqb_neq in Hne. now rewrite Hne.
    + now rewrite IH.
Qed.

Lemma keys_set (k : string) (v : V) (d : PyDict.dict V) :
  forall k0, In k0 (PyDict.keys d) -> In k0 (PyDict.keys (PyDict.set k v d)).
Proof.
  intros k0. induction d as [|[k' v'] d IH]; simpl; [easy|].
  destruct (String.eqb_spec k k'); simpl; intuition.
Qed.

Lemma get_In (k : string) (v : V) (d : PyDict.dict V) :
  PyDict.get k d = Some v -> In (k, v) d.
Proof.
  induction d as [|[k' v'] d IH]; simpl; [easy|].
  destruct (String.eqb_spec k k') as [->|Hne].
  - intros [= ->]. now left.
  - intros H. right. now apply IH.
Qed.

Lemma In_get (k : string) (v : V) (d : PyDict.dict V) :
  NoDup (PyDict.keys d) -> In (k, v) d -> PyDict.get k d = Some v.
Proof.
  induction d as [|[k' v'] d IH]; simpl; [easy|].
  intros Hnd [[= -> ->]|Hin].
  - now rewrite String.eqb_refl.
  - inversion Hnd as [|? ? Hk Hd]; subst.
    destruct (String.eqb_spec k k') as [->|Hne].
    + exfalso. apply Hk. change k' with (fst (k', v)). now apply in_map.
    + now apply IH.
Qed.
End Facts.

Lemma get_map (V W : Type) (f : V -> W) (k : string) (d : PyDict.dict V) :
  PyDict.get k (map (fun kv => (fst kv, f (snd kv))) d)
  = option_map f (PyDict.get k d).
Proof.
  induction d as [|[k' v] d IH]; simpl; [reflexivity|].
  destruct (String.eqb k k'); [reflexivity|exact IH].
Qed.

Lemma keys_map (V W : Type) (f : V -> W) (d : PyDict.dict V) :
  PyDict.keys (map (fun kv => (fst kv, f (snd kv))) d) = PyDict.keys d.
Proof.
  unfold PyDict.keys. rewrite map_map. reflexivity.
Qed.
End PyDictFacts.

Unset Implicit Arguments.

(** ** The effect of [disconnect] *)

Section DisconnectFacts.
Variable now : string.

Lemma disconnect_rooms_fst (c : WebSocket) (d : PyDict.dict (list WebSocket)) :
  fst (disconnect_rooms now c d)
  = map (fun kv => (fst kv, PyList.remove ws_eq_dec c (snd kv))) d.
Proof.
  induction d as [|[room connections] d IH]; simpl; [reflexivity|].
  destruct (disconnect_rooms now c d) as [d'' spawned]. simpl in IH.
  destruct (PyList.contains ws_eq_dec c connections) eqn:E; simpl; subst d''.
  - reflexivity.
  - apply PyListFacts.contains_false in E.
    now rewrite (PyListFacts.remove_absent ws_eq_dec _ _ E).
Qed.

Lemma disconnect_rooms_absent (c : WebSocket) (d : PyDict.dict (list WebSocket)) :
  (forall room members, In (room, members) d -> ~ In c members) ->
  disconnect_rooms now c d = (d, []).
Proof.
  induction d as [|[room connections] d IH]; simpl; intros H; [reflexivity|].
  rewrite IH by (intros r l Hin; apply (H r l); now right).
  assert (E : PyList.contains ws_eq_dec c connections = false).
  { apply PyListFacts.contains_false. apply (H room). now left. }
  now rewrite E.
Qed.

Lemma manager_disconnect (c : WebSocket) (w : World) :
  manager (disconnect now c w) = scrub c (manager w).
Proof.
  unfold disconnect, scrub.
  pose proof (disconnect_rooms_fst c (rooms (manager w))) as H.
  destruct (disconnect_rooms now c (rooms (manager w))) as [d spawned].
  simpl in *. subst d. now rewrite PyListFacts.guarded_remove.
Qed.

Lemma sent_disconnect (c : WebSocket) (w : World) :
  sent (disconnect now c w) = sent w.
Proof.
  unfold disconnect.
  now destruct (disconnect_rooms now c (rooms (manager w))).
Qed.

Lemma disconnect_untracked (c : WebSocket) (w : World) :
  untracked c (manager w) -> disconnect now c w = w.
Proof.
  intros [Hreg Hrooms]. unfold disconnect.
  rewrite disconnect_rooms_absent by exact Hrooms.
  rewrite PyListFacts.guarded_remove, PyListFacts.remove_absent by assumption.
  rewrite app_nil_r. now destruct w as [[? ?] ? ?].
Qed.

Lemma members_scrub (c : WebSocket) (room : string) (m : ConnectionManager) :
  members_of room (scrub c m) = PyList.remove ws_eq_dec c (members_of room m).
Proof.
  unfold members_of, scrub. simpl. rewrite PyDictFacts.get_map.
  now destruct (PyDict.get room (rooms m)).
Qed.

Lemma keys_scrub (c : WebSocket) (m : ConnectionManager) :
  PyDict.keys (rooms (scrub c m)) = PyDict.keys (rooms m).
Proof. apply PyDictFacts.keys_map. Qed.

Lemma scrub_at_most_once_untracked (c : WebSocket) (m : ConnectionManager) :
  at_most_once c m -> untracked c (scrub c m).
Proof.
  intros [Hreg Hrooms]. split; simpl.
  - now apply PyListFacts.remove_once_gone.
  - intros room members Hin. apply in_map_iff in Hin.
    destruct Hin as [[r l] [[= <- <-] Hin]]. simpl.
    apply PyListFacts.remove_once_gone. now apply (Hrooms r).
Qed.
End DisconnectFacts.

(** ** The two loops of a broadcast *)

Section BroadcastFacts.
Variable now : string.
Variable send_json_raises : list attempt -> WebSocket -> message -> bool.

Local Abbreviation outcomes := (outcomes send_json_raises).
Local Abbreviation send_each := (send_each send_json_raises).
Local Abbreviation broadcast_to_room := (broadcast_to_room now send_json_raises).
Local Abbreviation broadcast_to_all := (broadcast_to_all now send_json_raises).
Local Abbreviation fan_out := (fan_out now send_json_raises).


Lemma send_each_outcomes (members : list WebSocket) (m : message)
    (exclude : option WebSocket) :
  forall (acc : list WebSocket) (w : World),
    let atts := outcomes (sent w) (targets members exclude) m in
    send_each members m exclude acc w
    = (acc ++ failed atts, mkWorld (manager w) (sent w ++ atts) (pending w)).
Proof.
  induction members as [|c rest IH]; intros acc w; simpl.
  - rewrite !app_nil_r. now destruct w.
  - destruct (is_excluded c exclude) eqn:E; simpl.
    + apply IH.
    + unfold send_json.
      destruct (send_json_raises (sent w) c m) eqn:R; simpl;
        rewrite IH; simpl; rewrite <- !app_assoc; simpl;
        unfold failed; simpl; try rewrite <- app_assoc; reflexivity.
Qed.

Lemma skipn_length_app (A : Type) (l r : list A) :
  skipn (List.length l) (l ++ r) = r.
Proof. induction l as [|a l IH]; simpl; [reflexivity|exact IH]. Qed.

Lemma new_attempts_app (w : World) (mgr : ConnectionManager)
    (atts : list attempt) (q : list task) :
  new_attempts w (mkWorld mgr (sent w ++ atts) q) = atts.
Proof. unfold new_attempts. simpl. apply skipn_length_app. Qed.


Lemma outcomes_targets (history : list attempt) (to : list WebSocket) (m : message) :
  map target (outcomes history to m) = to.
Proof.
  revert history. induction to as [|c rest IH]; intros; simpl; [reflexivity|].
  now rewrite IH.
Qed.

Lemma outcomes_content (history : list attempt) (to : list WebSocket) (m : message) :
  Forall (fun a => content a = m) (outcomes history to m).
Proof.
  revert history. induction to as [|c rest IH]; intros; simpl; constructor;
    [reflexivity|apply IH].
Qed.

(** Each send is decided by the history it finds, whatever became of
    the sends before it. *)
Lemma outcomes_each (history : list attempt) (to : list WebSocket) (m : message) :
  forall pre a post,
    outcomes history to m = pre ++ a :: post ->
    delivered a = negb (send_json_raises (history ++ pre) (target a) m).
Proof.
  revert history. induction to as [|c rest IH]; intros history pre a post; simpl.
  - destruct pre; discriminate.
  - destruct pre as [|b pre]; simpl; intros H; injection H as Hb H.
    + subst a. simpl. now rewrite app_nil_r.
    + subst b. apply IH in H. rewrite H. now rewrite <- app_assoc.
Qed.

Lemma sent_disconnect_all (gone : list WebSocket) (w : World) :
  sent (disconnect_all now gone w) = sent w.
Proof.
  unfold disconnect_all. revert w.
  induction gone as [|c gone IH]; intros w; simpl; [reflexivity|].
  now rewrite IH, sent_disconnect.
Qed.

Lemma manager_disconnect_all (gone : list WebSocket) (w : World) :
  manager (disconnect_all now gone w) = scrub_all gone (manager w).
Proof.
  unfold disconnect_all, scrub_all. revert w.
  induction gone as [|c gone IH]; intros w; simpl; [reflexivity|].
  now rewrite IH, manager_disconnect.
Qed.

Lemma broadcast_to_room_fan_out (room : string) (m : message)
    (exclude : option WebSocket) (w : World) :
  broadcast_to_room room m exclude w
  = fan_out (members_of room (manager w)) m exclude w.
Proof.
  unfold broadcast_to_room, fan_out, members_of.
  destruct (PyDict.get room (rooms (manager w))) as [members|].
  - now rewrite send_each_outcomes.
  - simpl. rewrite app_nil_r. now destruct w.
Qed.

Lemma broadcast_to_all_fan_out (m : message) (w : World) :
  broadcast_to_all m w = fan_out (active_connections (manager w)) m None w.
Proof.
  unfold broadcast_to_all, fan_out. now rewrite send_each_outcomes.
Qed.

Lemma new_attempts_fan_out (members : list WebSocket) (m : message)
    (exclude : option WebSocket) (w : World) :
  new_attempts w (fan_out members m exclude w)
  = outcomes (sent w) (targets members exclude) m.
Proof.
  unfold fan_out, new_attempts. rewrite sent_disconnect_all. simpl.
  apply skipn_length_app.
Qed.

Lemma manager_fan_out (members : list WebSocket) (m : message)
    (exclude : option WebSocket) (w : World) :
  manager (fan_out members m exclude w)
  = scrub_all (failed (new_attempts w (fan_out members m exclude w))) (manager w).
Proof.
  rewrite new_attempts_fan_out. unfold fan_out.
  now rewrite manager_disconnect_all.
Qed.
End BroadcastFacts.

(** ** Joining *)

Section JoinFacts.
Variable now : string.
Variable send_json_raises : list attempt -> WebSocket -> message -> bool.

Lemma members_joined (c : WebSocket) (room : string) (m : ConnectionManager) :
  members_of room (joined c room m) = members_of room m ++ [c].
Proof.
  unfold joined, members_of at 1. simpl. rewrite PyDictFacts.get_set_same.
  f_equal. unfold members_of, PyDict.contains. simpl.
  destruct (PyDict.get room (rooms m)) eqn:E.
  - now rewrite E.
  - now rewrite PyDictFacts.get_set_same.
Qed.


Lemma connect_fan_out (c : WebSocket) (room : string) (w : World) :
  connect now send_json_raises c room w
  = fan_out now send_json_raises
      (members_of room (joined c room (manager w)))
      (user_joined now room (List.length (members_of room (joined c room (manager w)))))
      (Some c)
      (mkWorld (joined c room (manager w)) (sent w) (pending w)).
Proof.
  unfold connect. now rewrite broadcast_to_room_fan_out.
Qed.

Lemma failed_sub (l : list attempt) (x : WebSocket) :
  In x (failed l) -> In x (map target l).
Proof.
  unfold failed. rewrite !in_map_iff. intros [a [Ha Hin]].
  apply filter_In in Hin. destruct Hin as [Hin _]. exists a. now split.
Qed.

Lemma targets_In (members : list WebSocket) (exclude : option WebSocket)
    (x : WebSocket) :
  In x (targets members exclude) <-> In x members /\ exclude <> Some x.
Proof.
  unfold targets. rewrite filter_In. unfold is_excluded.
  destruct exclude as [e|]; simpl.
  - destruct (Nat.eqb_spec x e) as [->|Hne]; simpl; intuition congruence.
  - intuition congruence.
Qed.

Lemma failed_fan_out (members : list WebSocket) (m : message)
    (exclude : option WebSocket) (w : World) (x : WebSocket) :
  In x (failed (new_attempts w (fan_out now send_json_raises members m exclude w))) ->
  In x members /\ exclude <> Some x.
Proof.
  rewrite new_attempts_fan_out. intros H. apply failed_sub in H.
  rewrite outcomes_targets in H. now apply targets_In.
Qed.

Lemma count_scrub_all_registry (gone : list WebSocket) (c : WebSocket)
    (m : ConnectionManager) :
  ~ In c gone ->
  count_occ ws_eq_dec (active_connections (scrub_all gone m)) c
  = count_occ ws_eq_dec (active_connections m) c.
Proof.
  unfold scrub_all. revert m.
  induction gone as [|x gone IH]; intros m Hc; simpl; [reflexivity|].
  rewrite IH by (intros H; apply Hc; now right). simpl.
  apply PyListFacts.count_remove_other. intros ->. apply Hc. now left.
Qed.

Lemma count_scrub_all_room (gone : list WebSocket) (c : WebSocket) (room : string)
    (m : ConnectionManager) :
  ~ In c gone ->
  count_occ ws_eq_dec (members_of room (scrub_all gone m)) c
  = count_occ ws_eq_dec (members_of room m) c.
Proof.
  unfold scrub_all. revert m.
  induction gone as [|x gone IH]; intros m Hc; simpl; [reflexivity|].
  rewrite IH by (intros H; apply Hc; now right). rewrite members_scrub.
  apply PyListFacts.count_remove_other. intros ->. apply Hc. now left.
Qed.

(** C5 (amended): [connect] has no failing path, and it is not idempotent:
    each call appends the socket once more to [active_connections] and to
    the room's list, so the number of its occurrences in each grows by
    one, whatever the sends of the notification do. *)
Theorem connect_appends (c : WebSocket) (room : string) (w : World) :
  let w' := connect now send_json_raises c room w in
  count_occ ws_eq_dec (active_connections (manager w')) c
  = S (count_occ ws_eq_dec (active_connections (manager w)) c) /\
  count_occ ws_eq_dec (members_of room (manager w')) c
  = S (count_occ ws_eq_dec (members_of room (manager w)) c).
Proof.
  simpl. rewrite connect_fan_out.
  set (m' := joined c room (manager w)).
  set (w1 := mkWorld m' (sent w) (pending w)).
  set (msg := user_joined now room _).
  assert (Hc : ~ In c (failed (new_attempts w1
                 (fan_out now send_json_raises (members_of room m') msg (Some c) w1)))).
  { intros H. apply failed_fan_out in H. destruct H as [_ H]. now apply H. }
  rewrite manager_fan_out. split.
  - rewrite count_scrub_all_registry by exact Hc. subst w1 m'. simpl.
    rewrite count_occ_app. simpl. destruct (ws_eq_dec c c); [lia|congruence].
  - rewrite count_scrub_all_room by exact Hc. subst w1 m'. simpl.
    rewrite members_joined, count_occ_app. simpl.
    destruct (ws_eq_dec c c); [lia|congruence].
Qed.

End JoinFacts.

(** C5, as stated, fails: a second [connect] of a socket that is already
    in the registry and in the room is not a no-op; the socket is then
    twice in both lists. *)
Lemma connect_twice_duplicates :
  manager Scenario.alice_twice
  = mkManager [Scenario.alice; Scenario.alice]
              [("general"%string, [Scenario.alice; Scenario.alice])] /\
  manager Scenario.alice_twice
  <> manager (connect Scenario.clock Scenario.all_alive
                      Scenario.alice "general" empty_world).
Proof. split; [reflexivity|vm_compute; discriminate]. Qed.

(** ** Leaving *)

Section LeaveFacts.
Variable now : string.

(** [disconnect] takes one occurrence away from each list. *)
Lemma disconnect_counts (c : WebSocket) (w : World) :
  let m' := manager (disconnect now c w) in
  count_occ ws_eq_dec (active_connections m') c
  = pred (count_occ ws_eq_dec (active_connections (manager w)) c) /\
  forall room,
    count_occ ws_eq_dec (members_of room m') c
    = pred (count_occ ws_eq_dec (members_of room (manager w)) c).
Proof.
  simpl. rewrite manager_disconnect. split.
  - apply PyListFacts.count_remove_same.
  - intros room. rewrite members_scrub. apply PyListFacts.count_remove_same.
Qed.

(** C6 (amended): one [disconnect] of a socket that is at most once in
    [active_connections] and at most once in each room's list takes it
    out of the registry and out of every room, however many rooms it is
    in; the other sockets stay where they are. *)
Theorem disconnect_removes (c : WebSocket) (w : World) :
  at_most_once c (manager w) ->
  let m' := manager (disconnect now c w) in
  untracked c m' /\
  (forall room, ~ in_room c room m') /\
  (forall x, x <> c ->
     (in_registry x m' <-> in_registry x (manager w)) /\
     (forall room, in_room x room m' <-> in_room x room (manager w))).
Proof.
  intros Hc. simpl. rewrite manager_disconnect.
  split; [now apply scrub_at_most_once_untracked|]. split.
  - intros room. unfold in_room. rewrite members_scrub.
    apply (count_occ_not_In ws_eq_dec). rewrite PyListFacts.count_remove_same.
    destruct Hc as [_ Hc]. unfold members_of.
    destruct (PyDict.get room (rooms (manager w))) as [l|] eqn:E; simpl; [|lia].
    apply PyDictFacts.get_In in E. specialize (Hc _ _ E). lia.
  - intros x Hx. unfold in_registry, in_room. split; [|intros room].
    + simpl. split; [apply PyListFacts.In_remove|].
      apply PyListFacts.In_remove_other; congruence.
    + rewrite members_scrub. split; [apply PyListFacts.In_remove|].
      apply PyListFacts.In_remove_other; congruence.
Qed.


(** C7 (amended): for a socket that is at most once in
    [active_connections] and in each room's list, a second [disconnect]
    right after the first changes nothing; and [disconnect] of a socket
    that is in no list of the manager changes nothing and creates no task. *)
Theorem disconnect_idempotent (c : WebSocket) (w : World) :
  (at_most_once c (manager w) ->
   disconnect now c (disconnect now c w) = disconnect now c w) /\
  (untracked c (manager w) -> disconnect now c w = w).
Proof.
  split.
  - intros Hc. apply disconnect_untracked. rewrite manager_disconnect.
    now apply scrub_at_most_once_untracked.
  - apply disconnect_untracked.
Qed.

End LeaveFacts.

Lemma at_most_once_three_in_general :
  at_most_once Scenario.bob (manager Scenario.three_in_general).
Proof.
  split.
  - vm_compute. lia.
  - intros room members H. vm_compute in H.
    destruct H as [H|[]]. injection H as <- <-. vm_compute. lia.
Qed.

Lemma disconnect_removes_witness :
  at_most_once Scenario.bob (manager Scenario.three_in_general) /\
  untracked Scenario.bob
    (manager (disconnect Scenario.clock Scenario.bob Scenario.three_in_general)).
Proof.
  split; [exact at_most_once_three_in_general|].
  exact (proj1 (disconnect_removes Scenario.clock Scenario.bob
                  Scenario.three_in_general at_most_once_three_in_general)).
Defined.

(** C6, as stated, fails: after two joins of the same room one
    [disconnect] leaves the socket in the registry and in the room. *)
Lemma disconnect_leaves_duplicate :
  let m' := manager (disconnect Scenario.clock Scenario.alice Scenario.alice_twice) in
  in_registry Scenario.alice m' /\ in_room Scenario.alice "general" m'.
Proof. vm_compute. tauto. Qed.

Lemma disconnect_idempotent_witness :
  disconnect Scenario.clock Scenario.bob
    (disconnect Scenario.clock Scenario.bob Scenario.three_in_general)
  = disconnect Scenario.clock Scenario.bob Scenario.three_in_general /\
  disconnect Scenario.clock Scenario.bob empty_world = empty_world.
Proof.
  split.
  - exact (proj1 (disconnect_idempotent Scenario.clock Scenario.bob
                    Scenario.three_in_general) at_most_once_three_in_general).
  - refine (proj2 (disconnect_idempotent Scenario.clock Scenario.bob empty_world) _).
    split; [intros []|intros room members []].
Defined.

(** C7, as stated, fails: with a socket that joined twice, the second
    [disconnect] removes what the first one left. *)
Lemma disconnect_twice_differs :
  manager (disconnect Scenario.clock Scenario.alice
             (disconnect Scenario.clock Scenario.alice Scenario.alice_twice))
  <> manager (disconnect Scenario.clock Scenario.alice Scenario.alice_twice).
Proof. vm_compute. discriminate. Qed.

(** ** One message to one socket *)

Section SendFacts.
Variable now : string.
Variable send_json_raises : list attempt -> WebSocket -> message -> bool.

(** C1 (amended): [send_personal_message] makes exactly one send to the
    socket; when that send raises it calls [disconnect] on the socket; in
    both cases it returns normally: the bare [except] keeps the error
    from the caller, who cannot tell a failed delivery from a good one. *)
Theorem send_personal_message_swallows (m : message) (c : WebSocket) (w : World) :
  let raised := send_json_raises (sent w) c m in
  let w1 := mkWorld (manager w) (sent w ++ [mkAttempt c m (negb raised)]) (pending w) in
  let r := send_personal_message now send_json_raises m c w in
  fst r = Returned /\
  new_attempts w (snd r) = [mkAttempt c m (negb raised)] /\
  snd r = (if raised then disconnect now c w1 else w1).
Proof.
  simpl. unfold send_personal_message, send_json.
  destruct (send_json_raises (sent w) c m); simpl.
  - split; [reflexivity|]. split; [|reflexivity].
    unfold new_attempts. rewrite sent_disconnect. simpl. apply skipn_length_app.
  - split; [reflexivity|]. split; [|reflexivity]. apply new_attempts_app.
Qed.

End SendFacts.

(** C1, as stated, fails: the send to Alice raises, and the caller gets
    a normal return, not an error. *)
Lemma send_personal_message_hides_failure :
  Scenario.all_dead (sent Scenario.three_in_general) Scenario.alice Scenario.hello
  = true /\
  fst (send_personal_message Scenario.clock Scenario.all_dead Scenario.hello
         Scenario.alice Scenario.three_in_general)
  <> Raised.
Proof. split; [reflexivity|vm_compute; discriminate]. Qed.

(** ** Reading *)

Section ReadFacts.
Variable now : string.

(** C8: [get_room_info] changes nothing; for a room without members it
    reports 0 connections; and it reports the room as active exactly when
    the room is a key of [rooms]. *)
Theorem get_room_info_reads (room : string) (w : World) :
  snd (get_room_info room w) = w /\
  info_room (fst (get_room_info room w)) = room /\
  (members_of room (manager w) = [] ->
   info_connections (fst (get_room_info room w)) = 0) /\
  (info_active (fst (get_room_info room w)) = true
   <-> In room (PyDict.keys (rooms (manager w)))).
Proof.
  unfold get_room_info. simpl. repeat split.
  - intros H. now rewrite H.
  - apply PyDictFacts.contains_keys.
  - apply PyDictFacts.contains_keys.
Qed.

Lemma get_stats_reads (w : World) :
  snd (get_stats now w) = w /\
  total_connections (fst (get_stats now w))
  = List.length (active_connections (manager w)) /\
  PyDict.keys (stats_rooms (fst (get_stats now w)))
  = PyDict.keys (rooms (manager w)) /\
  forall room,
    PyDict.get room (stats_rooms (fst (get_stats now w)))
    = option_map (@List.length WebSocket) (PyDict.get room (rooms (manager w))).
Proof.
  unfold get_stats. simpl. repeat split.
  - apply PyDictFacts.keys_map.
  - intros room. apply PyDictFacts.get_map.
Qed.

End ReadFacts.

Lemma get_room_info_reads_witness :
  members_of "general" (manager Scenario.emptied_general) = [] /\
  info_connections (fst (get_room_info "general" Scenario.emptied_general)) = 0.
Proof.
  split; [reflexivity|].
  exact (proj1 (proj2 (proj2 (get_room_info_reads "general" Scenario.emptied_general)))
               eq_refl).
Defined.

(** ** Broadcasts *)

Section BroadcastClaims.
Variable now : string.
Variable send_json_raises : list attempt -> WebSocket -> message -> bool.

Local Abbreviation broadcast_to_room := (broadcast_to_room now send_json_raises).
Local Abbreviation broadcast_to_all := (broadcast_to_all now send_json_raises).
Local Abbreviation fan_out := (fan_out now send_json_raises).

Lemma failed_nil (l : list attempt) :
  Forall (fun a => delivered a = true) l -> failed l = [].
Proof.
  unfold failed. induction 1 as [|a l Ha Hl IH]; simpl; [reflexivity|].
  rewrite Ha. simpl. exact IH.
Qed.

Lemma fan_out_frame (members : list WebSocket) (m : message)
    (exclude : option WebSocket) (w : World) :
  Forall (fun a => delivered a = true)
         (new_attempts w (fan_out members m exclude w)) ->
  manager (fan_out members m exclude w) = manager w.
Proof.
  intros H. rewrite manager_fan_out. now rewrite (failed_nil _ H).
Qed.

(** C10: when every send of a [broadcast_to_room] call is delivered, the
    call leaves [active_connections] and [rooms] as they were; and the
    same for [broadcast_to_all]. *)
Theorem broadcast_without_failure_frame (room : string) (m : message)
    (exclude : option WebSocket) (w : World) :
  (Forall (fun a => delivered a = true)
          (new_attempts w (broadcast_to_room room m exclude w)) ->
   manager (broadcast_to_room room m exclude w) = manager w) /\
  (Forall (fun a => delivered a = true)
          (new_attempts w (broadcast_to_all m w)) ->
   manager (broadcast_to_all m w) = manager w).
Proof.
  rewrite broadcast_to_room_fan_out, broadcast_to_all_fan_out.
  split; apply fan_out_frame.
Qed.

Lemma received_outcomes (history : list attempt) (to : list WebSocket)
    (m : message) (x : WebSocket) :
  In x to -> (forall h, send_json_raises h x m = false) ->
  In x (received (outcomes send_json_raises history to m)).
Proof.
  intros Hin Hx. revert history.
  induction to as [|c rest IH]; intros history; [destruct Hin|].
  unfold received in *. simpl.
  destruct Hin as [->|Hin].
  - rewrite Hx. simpl. now left.
  - destruct (negb (send_json_raises history c m)); simpl; [right|]; now apply IH.
Qed.

Lemma received_sub (l : list attempt) (x : WebSocket) :
  In x (received l) -> In x (map target l).
Proof.
  unfold received. rewrite !in_map_iff. intros [a [Ha Hin]].
  apply filter_In in Hin. destruct Hin as [Hin _]. exists a. now split.
Qed.


End BroadcastClaims.

(** ** Cleanup after a broadcast *)

Section CleanupFacts.
Variable now : string.
Variable send_json_raises : list attempt -> WebSocket -> message -> bool.

Local Abbreviation broadcast_to_room := (broadcast_to_room now send_json_raises).
Local Abbreviation outcomes := (outcomes send_json_raises).

Lemma without_nil (l : list WebSocket) : without [] l = l.
Proof.
  unfold without. apply forallb_filter_id. apply forallb_forall. reflexivity.
Qed.

Lemma contains_cons (x y : WebSocket) (gone : list WebSocket) :
  PyList.contains ws_eq_dec y (x :: gone)
  = if ws_eq_dec x y then true else PyList.contains ws_eq_dec y gone.
Proof.
  destruct (ws_eq_dec x y) as [->|Hne].
  - apply PyListFacts.contains_In. now left.
  - destruct (PyList.contains ws_eq_dec y gone) eqn:E.
    + apply PyListFacts.contains_In. right. now apply PyListFacts.contains_In in E.
    + apply PyListFacts.contains_false. apply PyListFacts.contains_false in E.
      intros [H|H]; [now apply Hne|now apply E].
Qed.

Lemma without_cons (x : WebSocket) (gone l : list WebSocket) :
  without (x :: gone) l
  = without gone (filter (fun y => if ws_eq_dec x y then false else true) l).
Proof.
  unfold without. induction l as [|y l IH]; simpl; [reflexivity|].
  rewrite contains_cons.
  destruct (ws_eq_dec x y) as [->|Hne]; simpl; [exact IH|].
  now rewrite IH.
Qed.

Lemma remove_all_without (gone l : list WebSocket) :
  NoDup l -> remove_all gone l = without gone l.
Proof.
  unfold remove_all. revert l.
  induction gone as [|x gone IH]; intros l Hl; simpl.
  - now rewrite without_nil.
  - rewrite IH by now apply PyListFacts.NoDup_remove.
    rewrite without_cons. now rewrite PyListFacts.remove_filter.
Qed.

Lemma scrub_all_lists (gone : list WebSocket) (m : ConnectionManager) :
  scrub_all gone m
  = mkManager (remove_all gone (active_connections m))
              (map (fun kv => (fst kv, remove_all gone (snd kv))) (rooms m)).
Proof.
  unfold scrub_all, remove_all. revert m.
  induction gone as [|x gone IH]; intros m; simpl.
  - destruct m as [a d]. simpl. f_equal. rewrite <- (map_id d) at 1.
    apply map_ext. now intros [k v].
  - rewrite IH. unfold scrub. simpl. f_equal. rewrite map_map. reflexivity.
Qed.

Lemma members_scrub_all (gone : list WebSocket) (room : string)
    (m : ConnectionManager) :
  members_of room (scrub_all gone m) = remove_all gone (members_of room m).
Proof.
  rewrite scrub_all_lists. unfold members_of. simpl.
  rewrite PyDictFacts.get_map.
  destruct (PyDict.get room (rooms m)); simpl; [reflexivity|].
  unfold remove_all. induction gone; simpl; [reflexivity|assumption].
Qed.

Lemma keys_scrub_all (gone : list WebSocket) (m : ConnectionManager) :
  PyDict.keys (rooms (scrub_all gone m)) = PyDict.keys (rooms m).
Proof. rewrite scrub_all_lists. simpl. apply PyDictFacts.keys_map. Qed.

Lemma NoDup_members (room : string) (m : ConnectionManager) :
  duplicate_free m -> NoDup (members_of room m).
Proof.
  intros [_ H]. unfold members_of.
  destruct (PyDict.get room (rooms m)) as [l|] eqn:E; [|constructor].
  apply PyDictFacts.get_In in E. now apply (H room).
Qed.

Lemma NoDup_targets (members : list WebSocket) (exclude : option WebSocket) :
  NoDup members -> NoDup (targets members exclude).
Proof. apply NoDup_filter. Qed.

Lemma NoDup_failed (history : list attempt) (to : list WebSocket) (m : message) :
  NoDup to -> NoDup (failed (outcomes history to m)).
Proof.
  intros H. revert history.
  induction H as [|c rest Hc Hrest IH]; intros history; [constructor|].
  unfold failed in *. simpl.
  destruct (negb (negb (send_json_raises history c m))); simpl; [|apply IH].
  constructor; [|apply IH].
  intros Hin. apply Hc.
  apply (failed_sub (outcomes (history ++ [mkAttempt c m _]) rest m)) in Hin.
  now rewrite outcomes_targets in Hin.
Qed.

Lemma received_failed_length (l : list attempt) :
  List.length (received l) + List.length (failed l) = List.length l.
Proof.
  unfold received, failed. rewrite !length_map.
  induction l as [|a l IH]; simpl; [reflexivity|].
  destruct (delivered a); simpl; lia.
Qed.

Lemma received_not_failed (history : list attempt) (to : list WebSocket)
    (m : message) (x : WebSocket) :
  NoDup to ->
  (In x (received (outcomes history to m))
   <-> In x to /\ ~ In x (failed (outcomes history to m))).
Proof.
  intros H. revert history.
  induction H as [|c rest Hc Hrest IH]; intros history; [simpl; tauto|].
  set (a := mkAttempt c m (negb (send_json_raises history c m))).
  assert (HR : forall y, In y (received (outcomes (history ++ [a]) rest m)) -> In y rest).
  { intros y Hy. apply received_sub in Hy. now rewrite outcomes_targets in Hy. }
  assert (HF : forall y, In y (failed (outcomes (history ++ [a]) rest m)) -> In y rest).
  { intros y Hy. apply failed_sub in Hy. now rewrite outcomes_targets in Hy. }
  specialize (IH (history ++ [a])).
  change (outcomes history (c :: rest) m)
    with (a :: outcomes (history ++ [a]) rest m).
  unfold received, failed in *. simpl.
  destruct (negb (send_json_raises history c m)); simpl.
  - split.
    + intros [<-|Hin].
      * split; [now left|]. intros Hf. apply Hc. now apply HF.
      * apply IH in Hin. tauto.
    + intros [[<-|Hin] Hf]; [now left|]. right. apply IH. tauto.
  - split.
    + intros Hin. pose proof (HR _ Hin) as Hrest'. apply IH in Hin.
      split; [tauto|]. intros [<-|Hf]; [now apply Hc|tauto].
    + intros [[<-|Hin] Hf]; [exfalso; apply Hf; now left|].
      apply IH. split; [assumption|]. intros Hf'. apply Hf. now right.
Qed.


End CleanupFacts.

Lemma duplicate_free_three_in_general :
  duplicate_free (manager Scenario.three_in_general).
Proof.
  split.
  - vm_compute. repeat constructor; simpl; intuition discriminate.
  - intros room members H. vm_compute in H. destruct H as [H|[]].
    injection H as <- <-. repeat constructor; simpl; intuition discriminate.
Qed.


(** The scenario of the room "general": Bob's socket is dead, the next
    broadcast reaches Alice and Carol, and the room is left with two
    members. *)
Example broadcast_after_bob_died :
  let w := Scenario.three_in_general in
  let w' := broadcast_to_room Scenario.clock (Scenario.dead Scenario.bob)
              "general" Scenario.hello None w in
  received (new_attempts w w') = [Scenario.alice; Scenario.carol] /\
  failed (new_attempts w w') = [Scenario.bob] /\
  active_connections (manager w') = [Scenario.alice; Scenario.carol] /\
  info_connections (fst (get_room_info "general" w')) = 2.
Proof. vm_compute. repeat split. Qed.


Lemma broadcast_without_failure_frame_witness :
  let w := Scenario.three_in_general in
  let w' := broadcast_to_room Scenario.clock Scenario.all_alive
              "general" Scenario.hello (Some Scenario.alice) w in
  let w'' := broadcast_to_all Scenario.clock Scenario.all_alive Scenario.hello w in
  (Forall (fun a => delivered a = true) (new_attempts w w') /\
   manager w' = manager w) /\
  (Forall (fun a => delivered a = true) (new_attempts w w'') /\
   manager w'' = manager w).
Proof.
  assert (H : Forall (fun a => delivered a = true)
                (new_attempts Scenario.three_in_general
                   (broadcast_to_room Scenario.clock Scenario.all_alive
                      "general" Scenario.hello (Some Scenario.alice)
                      Scenario.three_in_general))).
  { vm_compute. repeat constructor. }
  assert (H' : Forall (fun a => delivered a = true)
                 (new_attempts Scenario.three_in_general
                    (broadcast_to_all Scenario.clock Scenario.all_alive
                       Scenario.hello Scenario.three_in_general))).
  { vm_compute. repeat constructor. }
  split; (split; [assumption|]).
  - exact (proj1 (broadcast_without_failure_frame Scenario.clock Scenario.all_alive
                    "general" Scenario.hello (Some Scenario.alice)
                    Scenario.three_in_general) H).
  - exact (proj2 (broadcast_without_failure_frame Scenario.clock Scenario.all_alive
                    "general" Scenario.hello (Some Scenario.alice)
                    Scenario.three_in_general) H').
Defined.


(** ** Sequences of calls *)

Section RunFacts.
Variable now : string.
Variable send_json_raises : list attempt -> WebSocket -> message -> bool.

Local Abbreviation step := (step now send_json_raises).
Local Abbreviation run := (run now send_json_raises).
Local Abbreviation joins_fresh := (joins_fresh now send_json_raises).

(** Whatever the call, the membership state changes by the appends of
    [connect], if it is one, and then by [disconnect]s only. *)
Lemma manager_step (w : World) (c : call) :
  exists gone,
    manager (step w c) = scrub_all gone (after_join c (manager w)).
Proof.
  destruct c as [ws room|ws|m ws|room m exclude|m|room| |]; simpl.
  - rewrite connect_fan_out, manager_fan_out. simpl. eexists. reflexivity.
  - exists [ws]. now rewrite manager_disconnect.
  - unfold send_personal_message, send_json.
    destruct (send_json_raises (sent w) ws m); simpl.
    + exists [ws]. now rewrite manager_disconnect.
    + now exists [].
  - rewrite broadcast_to_room_fan_out, manager_fan_out. eexists. reflexivity.
  - rewrite broadcast_to_all_fan_out, manager_fan_out. eexists. reflexivity.
  - now exists [].
  - now exists [].
  - unfold tick. destruct (pending w) as [|[room m] rest]; [now exists []|].
    simpl. rewrite broadcast_to_room_fan_out, manager_fan_out. simpl.
    eexists. reflexivity.
Qed.

Lemma scrub_all_preserves (P : ConnectionManager -> Prop) :
  (forall x m, P m -> P (scrub x m)) ->
  forall gone m, P m -> P (scrub_all gone m).
Proof.
  intros HP gone. unfold scrub_all.
  induction gone as [|x gone IH]; intros m Hm; simpl; [assumption|].
  apply IH. now apply HP.
Qed.

(** *** Rooms are never deleted *)

Lemma keys_joined (c : WebSocket) (room : string) (m : ConnectionManager) :
  In room (PyDict.keys (rooms (joined c room m))) /\
  forall k, In k (PyDict.keys (rooms m)) ->
            In k (PyDict.keys (rooms (joined c room m))).
Proof.
  split.
  - apply PyDictFacts.contains_keys. unfold PyDict.contains, joined. simpl.
    now rewrite PyDictFacts.get_set_same.
  - intros k Hk. unfold joined. simpl. apply PyDictFacts.keys_set.
    destruct (PyDict.contains room (rooms m)); [assumption|].
    now apply PyDictFacts.keys_set.
Qed.

Lemma keys_step (w : World) (c : call) (k : string) :
  In k (PyDict.keys (rooms (manager w))) ->
  In k (PyDict.keys (rooms (manager (step w c)))).
Proof.
  intros Hk. destruct (manager_step w c) as [gone ->].
  rewrite keys_scrub_all. destruct c; simpl; try assumption.
  now apply keys_joined.
Qed.

Lemma keys_run (calls : list call) (w : World) (k : string) :
  In k (PyDict.keys (rooms (manager w))) ->
  In k (PyDict.keys (rooms (manager (run calls w)))).
Proof.
  revert w. induction calls as [|c calls IH]; intros w Hk; simpl; [assumption|].
  apply IH. now apply keys_step.
Qed.

Lemma keys_connect (c : WebSocket) (room : string) (w : World) :
  In room (PyDict.keys (rooms (manager (connect now send_json_raises c room w)))).
Proof.
  destruct (manager_step w (Connect c room)) as [gone H]. simpl in H.
  rewrite H, keys_scrub_all. exact (proj1 (keys_joined c room (manager w))).
Qed.

(** C9: [rooms] never loses a key: a room that a [connect] created is
    still a key after any further calls, so that [get_room_info] reports
    it as active, with 0 connections once its list is empty, and
    [get_stats] lists it, with count 0 once its list is empty. *)
Theorem rooms_never_deleted (c : WebSocket) (room : string)
    (calls : list call) (w : World) :
  let w' := run calls (connect now send_json_raises c room w) in
  (forall k, In k (PyDict.keys (rooms (manager w))) ->
             In k (PyDict.keys (rooms (manager w')))) /\
  In room (PyDict.keys (rooms (manager w'))) /\
  info_active (fst (get_room_info room w')) = true /\
  In room (PyDict.keys (stats_rooms (fst (get_stats now w')))) /\
  (members_of room (manager w') = [] ->
   info_connections (fst (get_room_info room w')) = 0 /\
   PyDict.get room (stats_rooms (fst (get_stats now w'))) = Some 0).
Proof.
  simpl.
  set (w' := run calls (connect now send_json_raises c room w)).
  assert (Hroom : In room (PyDict.keys (rooms (manager w')))).
  { apply keys_run. apply keys_connect. }
  split.
  - intros k Hk. apply keys_run.
    change (connect now send_json_raises c room w) with (step w (Connect c room)).
    now apply keys_step.
  - split; [exact Hroom|].
    split; [now apply PyDictFacts.contains_keys|].
    split; [unfold PyDict.keys in *; simpl; now rewrite map_map|].
    intros Hempty. split; [now rewrite Hempty|].
    rewrite PyDictFacts.get_map.
    apply PyDictFacts.contains_keys in Hroom.
    unfold PyDict.contains in Hroom. unfold members_of in Hempty.
    destruct (PyDict.get room (rooms (manager w'))) as [l|]; [|discriminate].
    now subst l.
Qed.

End RunFacts.

Lemma rooms_never_deleted_witness :
  let w' := run Scenario.clock Scenario.all_alive [Disconnect Scenario.alice]
              (connect Scenario.clock Scenario.all_alive
                       Scenario.alice "general" empty_world) in
  members_of "general" (manager w') = [] /\
  info_connections (fst (get_room_info "general" w')) = 0 /\
  PyDict.get "general" (stats_rooms (fst (get_stats Scenario.clock w'))) = Some 0.
Proof.
  split; [reflexivity|].
  exact (proj2 (proj2 (proj2 (proj2
    (rooms_never_deleted Scenario.clock Scenario.all_alive Scenario.alice
       "general" [Disconnect Scenario.alice] empty_world)))) eq_refl).
Defined.

(** ** The registry and the rooms *)

Section LinkFacts.

Lemma In_set (k r : string) (v l : list WebSocket)
    (d : PyDict.dict (list WebSocket)) :
  In (r, l) (PyDict.set k v d) -> (r, l) = (k, v) \/ In (r, l) d.
Proof.
  induction d as [|[k' v'] d IH]; simpl.
  - intros [H|[]]. left. now symmetry.
  - destruct (String.eqb_spec k k') as [->|Hne]; simpl.
    + intros [H|H]; [left; now symmetry|right; now right].
    + intros [H|H]; [right; now left|].
      destruct (IH H) as [H'|H']; [now left|right; now right].
Qed.

Lemma In_keys_set (k k0 : string) (v : list WebSocket)
    (d : PyDict.dict (list WebSocket)) :
  In k0 (PyDict.keys (PyDict.set k v d)) -> k0 = k \/ In k0 (PyDict.keys d).
Proof.
  induction d as [|[k' v'] d IH]; simpl.
  - intros [H|[]]. left. now symmetry.
  - destruct (String.eqb_spec k k') as [->|Hne]; simpl.
    + intros [H|H]; [left; now symmetry|right; now right].
    + intros [H|H]; [right; now left|].
      destruct (IH H) as [H'|H']; [now left|right; now right].
Qed.

Lemma NoDup_keys_set (k : string) (v : list WebSocket)
    (d : PyDict.dict (list WebSocket)) :
  NoDup (PyDict.keys d) -> NoDup (PyDict.keys (PyDict.set k v d)).
Proof.
  induction d as [|[k' v'] d IH]; simpl; intros H.
  - repeat constructor. intros [].
  - inversion H as [|? ? Hk Hd]; subst.
    destruct (String.eqb_spec k k') as [->|Hne]; simpl; [assumption|].
    constructor; [|now apply IH].
    intros Hin. apply In_keys_set in Hin. destruct Hin as [->|Hin]; congruence.
Qed.

Lemma joined_rooms1 (c : WebSocket) (room : string) (m : ConnectionManager) :
  joined c room m
  = mkManager (active_connections m ++ [c])
              (PyDict.set room (members_of room m ++ [c]) (rooms1 room m)).
Proof.
  unfold joined, rooms1. f_equal. f_equal. f_equal.
  unfold members_of, PyDict.contains. simpl.
  destruct (PyDict.get room (rooms m)) eqn:E.
  - now rewrite E.
  - now rewrite PyDictFacts.get_set_same.
Qed.

Lemma In_rooms1 (room r : string) (l : list WebSocket) (m : ConnectionManager) :
  In (r, l) (rooms1 room m) -> l = [] \/ In (r, l) (rooms m).
Proof.
  unfold rooms1. destruct (PyDict.contains room (rooms m)); [now right|].
  intros H. apply In_set in H. destruct H as [[= _ ->]|H]; [now left|now right].
Qed.

Lemma members_entry (room : string) (m : ConnectionManager) :
  members_of room m = [] \/ In (room, members_of room m) (rooms m).
Proof.
  unfold members_of. destruct (PyDict.get room (rooms m)) eqn:E; [|now left].
  right. now apply PyDictFacts.get_In.
Qed.

(** *** Every member of a room is in the registry *)

Lemma within_empty : rooms_within_registry empty_manager.
Proof. intros c room members []. Qed.

Lemma within_scrub (x : WebSocket) (m : ConnectionManager) :
  rooms_within_registry m -> rooms_within_registry (scrub x m).
Proof.
  intros H c room members Hin. simpl in *.
  apply in_map_iff in Hin. destruct Hin as [[r l] [[= <- <-] Hin]].
  specialize (H c _ _ Hin). simpl.
  destruct (ws_eq_dec x c) as [->|Hne].
  - rewrite !PyListFacts.count_remove_same. lia.
  - now rewrite !PyListFacts.count_remove_other by assumption.
Qed.

Lemma within_joined (x : WebSocket) (room : string) (m : ConnectionManager) :
  rooms_within_registry m -> rooms_within_registry (joined x room m).
Proof.
  intros H c r l Hin. rewrite joined_rooms1 in *. simpl in *.
  rewrite count_occ_app.
  apply In_set in Hin. destruct Hin as [[= -> ->]|Hin].
  - rewrite count_occ_app.
    destruct (members_entry room m) as [->|He]; simpl; [lia|].
    specialize (H c _ _ He). lia.
  - apply In_rooms1 in Hin. destruct Hin as [->|Hin]; simpl; [lia|].
    specialize (H c _ _ Hin). lia.
Qed.


(** *** Each socket once in the registry and once in the rooms *)

Lemma linked_empty : linked empty_manager.
Proof. split; [constructor|]. intros c. simpl. lia. Qed.

Lemma room_total_scrub_other (x c : WebSocket) (d : PyDict.dict (list WebSocket)) :
  x <> c ->
  room_total c (map (fun kv => (fst kv, PyList.remove ws_eq_dec x (snd kv))) d)
  = room_total c d.
Proof.
  intros Hne. induction d as [|[k l] d IH]; simpl; [reflexivity|].
  now rewrite IH, PyListFacts.count_remove_other.
Qed.

Lemma room_total_scrub_same (x : WebSocket) (d : PyDict.dict (list WebSocket)) :
  room_total x d <= 1 ->
  room_total x (map (fun kv => (fst kv, PyList.remove ws_eq_dec x (snd kv))) d)
  = pred (room_total x d).
Proof.
  induction d as [|[k l] d IH]; simpl; intros H; [reflexivity|].
  rewrite IH, PyListFacts.count_remove_same by lia. lia.
Qed.

Lemma room_total_set (c : WebSocket) (k : string) (v : list WebSocket)
    (d : PyDict.dict (list WebSocket)) :
  room_total c (PyDict.set k v d)
  + count_occ ws_eq_dec (match PyDict.get k d with Some l => l | None => [] end) c
  = room_total c d + count_occ ws_eq_dec v c.
Proof.
  induction d as [|[k' v'] d IH]; simpl; [lia|].
  destruct (String.eqb_spec k k') as [->|Hne]; simpl; lia.
Qed.

Lemma room_total_entry (c : WebSocket) (r : string) (l : list WebSocket)
    (d : PyDict.dict (list WebSocket)) :
  In (r, l) d -> count_occ ws_eq_dec l c <= room_total c d.
Proof.
  induction d as [|[k' v'] d IH]; simpl; [intros []|].
  intros [[= -> ->]|H]; [lia|]. specialize (IH H). lia.
Qed.


Lemma linked_scrub (x : WebSocket) (m : ConnectionManager) :
  linked m -> linked (scrub x m).
Proof.
  intros [Hk H]. split; [now rewrite keys_scrub|].
  intros c. destruct (H c) as [H1 H2]. simpl.
  destruct (ws_eq_dec x c) as [->|Hne].
  - rewrite PyListFacts.count_remove_same, room_total_scrub_same by lia. lia.
  - rewrite PyListFacts.count_remove_other, room_total_scrub_other by assumption.
    lia.
Qed.

Lemma room_total_rooms1 (c : WebSocket) (room : string) (m : ConnectionManager) :
  room_total c (rooms1 room m) = room_total c (rooms m) /\
  match PyDict.get room (rooms1 room m) with Some l => l | None => [] end
  = members_of room m.
Proof.
  unfold rooms1, members_of, PyDict.contains.
  destruct (PyDict.get room (rooms m)) as [l|] eqn:E.
  - now rewrite E.
  - rewrite PyDictFacts.get_set_same. split; [|reflexivity].
    pose proof (room_total_set c room [] (rooms m)) as H.
    rewrite E in H. simpl in H. lia.
Qed.

Lemma linked_joined (x : WebSocket) (room : string) (m : ConnectionManager) :
  ~ In x (active_connections m) -> linked m -> linked (joined x room m).
Proof.
  intros Hx [Hk H]. rewrite joined_rooms1. split; simpl.
  - apply NoDup_keys_set. unfold rooms1.
    destruct (PyDict.contains room (rooms m)); [assumption|].
    now apply NoDup_keys_set.
  - intros c. destruct (H c) as [H1 H2].
    pose proof (room_total_set c room (members_of room m ++ [x]) (rooms1 room m)) as Hs.
    destruct (room_total_rooms1 c room m) as [Hr1 Hr2].
    rewrite Hr1, Hr2 in Hs. rewrite count_occ_app in *.
    apply (count_occ_not_In ws_eq_dec) in Hx. simpl in *.
    destruct (ws_eq_dec x c) as [->|Hne]; lia.
Qed.


End LinkFacts.

Section LinkClaim.
Variable now : string.
Variable send_json_raises : list attempt -> WebSocket -> message -> bool.

Local Abbreviation step := (step now send_json_raises).
Local Abbreviation run := (run now send_json_raises).
Local Abbreviation joins_fresh := (joins_fresh now send_json_raises).

Lemma within_step (w : World) (c : call) :
  rooms_within_registry (manager w) ->
  rooms_within_registry (manager (step w c)).
Proof.
  intros H. destruct (manager_step now send_json_raises w c) as [gone ->].
  apply scrub_all_preserves; [exact within_scrub|].
  destruct c; simpl; try assumption. now apply within_joined.
Qed.

Lemma within_run (calls : list call) (w : World) :
  rooms_within_registry (manager w) ->
  rooms_within_registry (manager (run calls w)).
Proof.
  revert w. induction calls as [|c calls IH]; intros w H; simpl; [assumption|].
  apply IH. now apply within_step.
Qed.

Lemma linked_run (calls : list call) (w : World) :
  linked (manager w) -> joins_fresh calls w = true ->
  linked (manager (run calls w)).
Proof.
  revert w. induction calls as [|c calls IH]; intros w H Hf; simpl; [assumption|].
  simpl in Hf. apply andb_true_iff in Hf. destruct Hf as [Hc Hf].
  apply IH; [|exact Hf].
  destruct (manager_step now send_json_raises w c) as [gone ->].
  apply scrub_all_preserves; [exact linked_scrub|].
  destruct c; simpl; try assumption.
  apply linked_joined; [|assumption].
  apply negb_true_iff in Hc. now apply PyListFacts.contains_false in Hc.
Qed.


End LinkClaim.



(** * Further properties of the manager *)

(** ** The notifications of [connect] and [disconnect] *)

Section NotificationFacts.
Variable now : string.
Variable send_json_raises : list attempt -> WebSocket -> message -> bool.

Lemma targets_app (l1 l2 : list WebSocket) (exclude : option WebSocket) :
  targets (l1 ++ l2) exclude = targets l1 exclude ++ targets l2 exclude.
Proof. unfold targets. apply filter_app. Qed.

Lemma targets_self (c : WebSocket) : targets [c] (Some c) = [].
Proof. unfold targets. simpl. now rewrite Nat.eqb_refl. Qed.


(** A socket that joins a room in which there is nobody else causes no
    send, no cleanup and no task: the call only appends it to
    [active_connections] and to the room's list. *)
Theorem connect_alone_is_silent (c : WebSocket) (room : string) (w : World) :
  (forall x, In x (members_of room (manager w)) -> x = c) ->
  connect now send_json_raises c room w
  = mkWorld (joined c room (manager w)) (sent w) (pending w).
Proof.
  intros Halone. rewrite connect_fan_out. unfold fan_out. simpl.
  rewrite members_joined, targets_app, targets_self, app_nil_r.
  assert (E : targets (members_of room (manager w)) (Some c) = []).
  { destruct (targets (members_of room (manager w)) (Some c)) as [|x l] eqn:E;
      [reflexivity|].
    assert (Hx : In x (targets (members_of room (manager w)) (Some c)))
      by (rewrite E; now left).
    apply targets_In in Hx. destruct Hx as [Hx Hne].
    apply Halone in Hx. congruence. }
  rewrite E. simpl. now rewrite app_nil_r.
Qed.

Lemma length_remove (x : WebSocket) (l : list WebSocket) :
  In x l -> List.length (PyList.remove ws_eq_dec x l) = pred (List.length l).
Proof.
  induction l as [|y l IH]; simpl; [intros []|].
  destruct (ws_eq_dec x y) as [->|Hne]; [reflexivity|].
  intros [H|H]; [congruence|]. simpl. rewrite IH by assumption.
  destruct l; [destruct H|reflexivity].
Qed.

Lemma disconnect_rooms_snd (c : WebSocket) (d : PyDict.dict (list WebSocket)) :
  snd (disconnect_rooms now c d) = map (left_task now) (rooms_holding c d).
Proof.
  induction d as [|[room connections] d IH]; simpl; [reflexivity|].
  destruct (disconnect_rooms now c d) as [d'' spawned]. simpl in IH. subst spawned.
  destruct (PyList.contains ws_eq_dec c connections) eqn:E; simpl; [|reflexivity].
  unfold left_task at 1. simpl.
  apply PyListFacts.contains_In in E. now rewrite (length_remove _ _ E).
Qed.

Lemma pending_disconnect (c : WebSocket) (w : World) :
  pending (disconnect now c w)
  = pending w ++ map (left_task now) (rooms_holding c (rooms (manager w))).
Proof.
  unfold disconnect.
  pose proof (disconnect_rooms_snd c (rooms (manager w))) as H.
  destruct (disconnect_rooms now c (rooms (manager w))) as [d spawned].
  simpl in *. now subst spawned.
Qed.

(** [disconnect] sends nothing itself: it queues one [user_left]
    notification for each room whose list held the socket, in the order
    of the rooms, each with the length of the list after the removal. *)
Theorem disconnect_queues_notifications (c : WebSocket) (w : World) :
  sent (disconnect now c w) = sent w /\
  pending (disconnect now c w)
  = pending w ++ map (left_task now) (rooms_holding c (rooms (manager w))).
Proof.
  unfold disconnect.
  pose proof (disconnect_rooms_snd c (rooms (manager w))) as H.
  destruct (disconnect_rooms now c (rooms (manager w))) as [d spawned].
  simpl in *. subst spawned. split; reflexivity.
Qed.

End NotificationFacts.

Lemma connect_alone_is_silent_witness :
  connect Scenario.clock Scenario.all_dead Scenario.alice "general" empty_world
  = mkWorld (joined Scenario.alice "general" empty_manager) [] [].
Proof.
  refine (connect_alone_is_silent Scenario.clock Scenario.all_dead
            Scenario.alice "general" empty_world _).
  intros x [].
Defined.

(** ** Broadcast to everyone *)

Section BroadcastAllFacts.
Variable now : string.
Variable send_json_raises : list attempt -> WebSocket -> message -> bool.

Lemma targets_none (l : list WebSocket) : targets l None = l.
Proof.
  unfold targets. apply forallb_filter_id. apply forallb_forall. reflexivity.
Qed.


End BroadcastAllFacts.


(** ** Statistics *)

Section StatsFacts.
Variable now : string.
Variable send_json_raises : list attempt -> WebSocket -> message -> bool.

(** [get_stats] and [get_room_info] agree: a room is listed by
    [get_stats] exactly when [get_room_info] reports it as active, and
    then with the number of connections [get_room_info] reports; both
    leave the manager as it is. *)
Theorem get_stats_agrees_with_room_info (room : string) (w : World) :
  let st := fst (get_stats now w) in
  let info := fst (get_room_info room w) in
  PyDict.get room (stats_rooms st)
  = (if info_active info then Some (info_connections info) else None) /\
  total_connections st = List.length (active_connections (manager w)) /\
  snd (get_stats now w) = w /\
  snd (get_room_info room w) = w.
Proof.
  simpl. split; [|repeat split].
  rewrite PyDictFacts.get_map. unfold PyDict.contains, members_of.
  now destruct (PyDict.get room (rooms (manager w))).
Qed.

Lemma linked_duplicate_free (m : ConnectionManager) :
  linked m -> duplicate_free m.
Proof.
  intros [_ H]. split.
  - apply (NoDup_count_occ ws_eq_dec). intros c. apply H.
  - intros room members Hin. apply (NoDup_count_occ ws_eq_dec). intros c.
    destruct (H c) as [H1 H2].
    pose proof (room_total_entry c _ _ _ Hin). lia.
Qed.

Lemma linked_at_most_once (m : ConnectionManager) (c : WebSocket) :
  linked m -> at_most_once c m.
Proof.
  intros [_ H]. destruct (H c) as [H1 H2]. split; [exact H1|].
  intros room members Hin. pose proof (room_total_entry c _ _ _ Hin). lia.
Qed.

(** When no socket is connected while the manager still holds it, every
    state reached from the empty manager keeps each socket at most once
    in [active_connections] and in each room's list, and each room name
    once in [rooms]. *)
Theorem fresh_joins_keep_lists_duplicate_free (calls : list call) :
  joins_fresh now send_json_raises calls empty_world = true ->
  let m := manager (run now send_json_raises calls empty_world) in
  duplicate_free m /\
  NoDup (PyDict.keys (rooms m)) /\
  forall c, at_most_once c m.
Proof.
  intros Hf. simpl.
  assert (Hl : linked (manager (run now send_json_raises calls empty_world))).
  { apply linked_run; [exact linked_empty|exact Hf]. }
  split; [now apply linked_duplicate_free|].
  split; [apply Hl|]. intros c. now apply linked_at_most_once.
Qed.

Lemma room_total_all_members (c : WebSocket) (d : PyDict.dict (list WebSocket)) :
  room_total c d = count_occ ws_eq_dec (all_members d) c.
Proof.
  unfold all_members. induction d as [|[k l] d IH]; simpl; [reflexivity|].
  now rewrite count_occ_app, IH.
Qed.

Lemma linked_lengths (m : ConnectionManager) :
  linked m ->
  List.length (active_connections m)
  = list_sum (map (fun kv => List.length (snd kv)) (rooms m)).
Proof.
  intros [_ H].
  assert (P : Permutation (all_members (rooms m)) (active_connections m)).
  { apply (Permutation_count_occ ws_eq_dec). intros c.
    rewrite <- room_total_all_members. apply H. }
  rewrite <- (Permutation_length P). unfold all_members.
  rewrite length_concat, map_map. reflexivity.
Qed.

(** When no socket is connected while the manager still holds it, the
    total that [get_stats] reports is the sum of the counts it reports
    for the rooms. *)
Theorem stats_total_is_sum_of_rooms (calls : list call) :
  joins_fresh now send_json_raises calls empty_world = true ->
  let st := fst (get_stats now (run now send_json_raises calls empty_world)) in
  total_connections st = list_sum (map snd (stats_rooms st)).
Proof.
  intros Hf. simpl. rewrite map_map. simpl.
  apply linked_lengths. apply linked_run; [exact linked_empty|exact Hf].
Qed.

End StatsFacts.

Lemma fresh_joins_keep_lists_duplicate_free_witness :
  joins_fresh Scenario.clock Scenario.all_alive Scenario.come_and_go empty_world
  = true /\
  duplicate_free
    (manager (run Scenario.clock Scenario.all_alive Scenario.come_and_go
                  empty_world)).
Proof.
  split; [reflexivity|].
  exact (proj1 (fresh_joins_keep_lists_duplicate_free Scenario.clock
                  Scenario.all_alive Scenario.come_and_go eq_refl)).
Defined.

Lemma stats_total_is_sum_of_rooms_witness :
  let st := fst (get_stats Scenario.clock
                   (run Scenario.clock Scenario.all_alive Scenario.come_and_go
                        empty_world)) in
  joins_fresh Scenario.clock Scenario.all_alive Scenario.come_and_go empty_world
  = true /\
  total_connections st = list_sum (map snd (stats_rooms st)).
Proof.
  split; [reflexivity|].
  exact (stats_total_is_sum_of_rooms Scenario.clock Scenario.all_alive
           Scenario.come_and_go eq_refl).
Defined.

(** ** What a call can and cannot do to the membership *)

Section StepFacts.
Variable now : string.
Variable send_json_raises : list attempt -> WebSocket -> message -> bool.

Local Abbreviation step := (step now send_json_raises).
Local Abbreviation outcomes := (outcomes send_json_raises).

Lemma failed_raised (history : list attempt) (to : list WebSocket)
    (m : message) (y : WebSocket) :
  In y (failed (outcomes history to m)) ->
  exists h, send_json_raises h y m = true.
Proof.
  revert history. induction to as [|c rest IH]; intros history; [intros []|].
  unfold failed in *. simpl.
  destruct (send_json_raises history c m) eqn:R; simpl.
  - intros [<-|H]; [now exists history|now apply IH in H].
  - intros H. now apply IH in H.
Qed.

(** The sockets a call removes are the one it disconnects and those
    whose send raised. *)
Lemma manager_step_gone (w : World) (c : call) :
  exists gone,
    manager (step w c) = scrub_all gone (after_join c (manager w)) /\
    forall y, In y gone ->
              c = Disconnect y \/ exists h m, send_json_raises h y m = true.
Proof.
  assert (F : forall members m exclude w0 y,
             In y (failed (new_attempts w0
                     (fan_out now send_json_raises members m exclude w0))) ->
             exists h m', send_json_raises h y m' = true).
  { intros members m exclude w0 y. rewrite new_attempts_fan_out. intros H.
    apply failed_raised in H. destruct H as [h H]. now exists h, m. }
  destruct c as [ws room|ws|m ws|room m exclude|m|room| |]; simpl.
  - rewrite connect_fan_out, manager_fan_out. simpl. eexists.
    split; [reflexivity|]. intros y Hy. right. eapply F. exact Hy.
  - exists [ws]. split; [now rewrite manager_disconnect|].
    intros y [<-|[]]. now left.
  - unfold send_personal_message, send_json.
    destruct (send_json_raises (sent w) ws m) eqn:R; simpl.
    + exists [ws]. split; [now rewrite manager_disconnect|].
      intros y [<-|[]]. right. now exists (sent w), m.
    + exists []. split; [reflexivity|intros y []].
  - rewrite broadcast_to_room_fan_out, manager_fan_out. eexists.
    split; [reflexivity|]. intros y Hy. right. eapply F. exact Hy.
  - rewrite broadcast_to_all_fan_out, manager_fan_out. eexists.
    split; [reflexivity|]. intros y Hy. right. eapply F. exact Hy.
  - exists []. split; [reflexivity|intros y []].
  - exists []. split; [reflexivity|intros y []].
  - unfold tick. destruct (pending w) as [|[room m] rest].
    + exists []. split; [reflexivity|intros y []].
    + simpl. rewrite broadcast_to_room_fan_out, manager_fan_out. simpl.
      eexists. split; [reflexivity|]. intros y Hy. right. eapply F. exact Hy.
Qed.

Lemma In_remove_all (gone l : list WebSocket) (x : WebSocket) :
  In x (remove_all gone l) -> In x l.
Proof.
  unfold remove_all. revert l.
  induction gone as [|y gone IH]; intros l; simpl; [easy|].
  intros H. apply IH in H. eapply PyListFacts.In_remove. exact H.
Qed.

Lemma members_joined_elsewhere (c : WebSocket) (room r : string)
    (m : ConnectionManager) :
  r <> room -> members_of r (joined c room m) = members_of r m.
Proof.
  intros Hne. unfold joined, members_of at 1. simpl.
  rewrite PyDictFacts.get_set_other by assumption.
  destruct (PyDict.contains room (rooms m)); [reflexivity|].
  now rewrite PyDictFacts.get_set_other by assumption.
Qed.

(** Only [connect] adds: after any call, a socket that is in
    [active_connections] was there before or is the one the call
    connected, and a socket that is in a room's list was in that list
    before or is the one the call connected to that room. *)
Theorem only_connect_adds (w : World) (c : call) (x : WebSocket) :
  (in_registry x (manager (step w c)) ->
   in_registry x (manager w) \/ exists room, c = Connect x room) /\
  (forall r, in_room x r (manager (step w c)) ->
             in_room x r (manager w) \/ c = Connect x r).
Proof.
  destruct (manager_step now send_json_raises w c) as [gone E].
  unfold in_registry, in_room. rewrite E. split.
  - rewrite scrub_all_lists. simpl. intros H. apply In_remove_all in H.
    destruct c; simpl in H; try (now left).
    apply in_app_iff in H. destruct H as [H|[<-|[]]]; [now left|].
    right. now eexists.
  - intros r. rewrite members_scrub_all. intros H. apply In_remove_all in H.
    destruct c as [ws room| | | | | | |]; simpl in H; try (now left).
    destruct (string_dec r room) as [->|Hne].
    + rewrite members_joined in H. apply in_app_iff in H.
      destruct H as [H|[<-|[]]]; [now left|now right].
    + rewrite members_joined_elsewhere in H by assumption. now left.
Qed.

Lemma count_after_join (c : call) (m : ConnectionManager) (x : WebSocket) :
  count_occ ws_eq_dec (active_connections m) x
  <= count_occ ws_eq_dec (active_connections (after_join c m)) x /\
  forall r, count_occ ws_eq_dec (members_of r m) x
            <= count_occ ws_eq_dec (members_of r (after_join c m)) x.
Proof.
  destruct c as [ws room| | | | | | |]; simpl; try (split; [|intros r]; lia).
  split.
  - rewrite count_occ_app. lia.
  - intros r. destruct (string_dec r room) as [->|Hne].
    + rewrite members_joined, count_occ_app. lia.
    + rewrite members_joined_elsewhere by assumption. lia.
Qed.

(** A socket none of whose sends raises is taken out by its own
    [disconnect] only: every other call leaves it in
    [active_connections] and in every room it is in, whatever happens to
    the other sockets. *)
Theorem healthy_socket_stays (w : World) (c : call) (x : WebSocket) :
  healthy send_json_raises x ->
  c <> Disconnect x ->
  (in_registry x (manager w) -> in_registry x (manager (step w c))) /\
  (forall r, in_room x r (manager w) -> in_room x r (manager (step w c))).
Proof.
  intros Hh Hc.
  destruct (manager_step_gone w c) as [gone [E Hgone]].
  assert (Hx : ~ In x gone).
  { intros Hin. destruct (Hgone x Hin) as [->|[h [m H]]]; [now apply Hc|].
    rewrite Hh in H. discriminate. }
  unfold in_registry, in_room. rewrite E.
  destruct (count_after_join c (manager w) x) as [Ha Hr]. split.
  - intros H. apply (count_occ_In ws_eq_dec) in H.
    apply (count_occ_In ws_eq_dec).
    rewrite count_scrub_all_registry by exact Hx. lia.
  - intros r H. apply (count_occ_In ws_eq_dec) in H.
    apply (count_occ_In ws_eq_dec).
    rewrite count_scrub_all_room by exact Hx. specialize (Hr r). lia.
Qed.

End StepFacts.

Lemma healthy_socket_stays_witness :
  let w := Scenario.three_in_general in
  healthy (Scenario.dead Scenario.bob) Scenario.alice /\
  BroadcastToAll Scenario.hello <> Disconnect Scenario.alice /\
  in_registry Scenario.alice
    (manager (step Scenario.clock (Scenario.dead Scenario.bob) w
                   (BroadcastToAll Scenario.hello))).
Proof.
  assert (Hh : healthy (Scenario.dead Scenario.bob) Scenario.alice)
    by (intros h m; reflexivity).
  assert (Hc : BroadcastToAll Scenario.hello <> Disconnect Scenario.alice)
    by discriminate.
  assert (Hin : in_registry Scenario.alice (manager Scenario.three_in_general))
    by (vm_compute; tauto).
  repeat split; try assumption.
  exact (proj1 (healthy_socket_stays Scenario.clock (Scenario.dead Scenario.bob)
                  Scenario.three_in_general (BroadcastToAll Scenario.hello)
                  Scenario.alice Hh Hc) Hin).
Defined.

Lemma only_connect_adds_witness :
  let w' := step Scenario.clock Scenario.all_alive Scenario.three_in_general
                 (BroadcastToAll Scenario.hello) in
  in_registry Scenario.bob (manager w') /\
  (in_registry Scenario.bob (manager Scenario.three_in_general) \/
   exists room, BroadcastToAll Scenario.hello = Connect Scenario.bob room).
Proof.
  assert (H : in_registry Scenario.bob
                (manager (step Scenario.clock Scenario.all_alive
                               Scenario.three_in_general
                               (BroadcastToAll Scenario.hello))))
    by (vm_compute; tauto).
  split; [exact H|].
  exact (proj1 (only_connect_adds Scenario.clock Scenario.all_alive
                  Scenario.three_in_general (BroadcastToAll Scenario.hello)
                  Scenario.bob) H).
Defined.

(** ** Who gets a message *)

Section RecipientFacts.
Variable now : string.
Variable send_json_raises : list attempt -> WebSocket -> message -> bool.

Local Abbreviation step := (step now send_json_raises).

Lemma new_attempts_none (w w' : World) :
  sent w' = sent w -> new_attempts w w' = [].
Proof. unfold new_attempts. intros ->. apply skipn_all. Qed.

Lemma fan_out_recipients (members : list WebSocket) (m : message)
    (exclude : option WebSocket) (w w0 : World) (y : WebSocket) :
  sent w0 = sent w ->
  In y (map target (new_attempts w
          (fan_out now send_json_raises members m exclude w0))) ->
  In y members /\ exclude <> Some y.
Proof.
  intros Hs.
  assert (E : forall w', new_attempts w w' = new_attempts w0 w')
    by (intros w'; unfold new_attempts; now rewrite Hs).
  rewrite E, new_attempts_fan_out, outcomes_targets. apply targets_In.
Qed.

(** Every send of a call goes to a socket of the list the call is about. *)
Lemma step_recipients (w : World) (c : call) (y : WebSocket) :
  In y (map target (new_attempts w (step w c))) ->
  match c with
  | Connect websocket room =>
      in_room y room (manager w) /\ y <> websocket
  | BroadcastToRoom room _ exclude =>
      in_room y room (manager w) /\ exclude <> Some y
  | BroadcastToAll _ => in_registry y (manager w)
  | SendPersonalMessage _ websocket => y = websocket
  | Tick => exists room m rest,
      pending w = broadcast_task room m :: rest /\ in_room y room (manager w)
  | Disconnect _ | GetRoomInfo _ | GetStats => False
  end.
Proof.
  destruct c as [ws room|ws|m ws|room m exclude|m|room| |]; simpl.
  - rewrite connect_fan_out. intros H.
    apply fan_out_recipients in H; [|reflexivity]. destruct H as [H Hne].
    rewrite members_joined in H. apply in_app_iff in H.
    destruct H as [H|[<-|[]]]; [|congruence].
    split; [exact H|congruence].
  - rewrite new_attempts_none by apply sent_disconnect. intros [].
  - unfold send_personal_message, send_json.
    destruct (send_json_raises (sent w) ws m); simpl.
    + unfold new_attempts. rewrite sent_disconnect. simpl.
      rewrite skipn_length_app. simpl. intros [<-|[]]. reflexivity.
    + rewrite new_attempts_app. simpl. intros [<-|[]]. reflexivity.
  - rewrite broadcast_to_room_fan_out. intros H.
    now apply fan_out_recipients in H.
  - rewrite broadcast_to_all_fan_out. intros H.
    apply fan_out_recipients in H; [|reflexivity]. apply H.
  - rewrite new_attempts_none by reflexivity. intros [].
  - rewrite new_attempts_none by reflexivity. intros [].
  - unfold tick. destruct (pending w) as [|[room m] rest].
    + rewrite new_attempts_none by reflexivity. intros [].
    + simpl. rewrite broadcast_to_room_fan_out. intros H.
      apply fan_out_recipients in H; [|reflexivity].
      exists room, m, rest. split; [reflexivity|apply H].
Qed.


Lemma untracked_members (x : WebSocket) (room : string) (m : ConnectionManager) :
  untracked x m -> ~ In x (members_of room m).
Proof.
  intros [_ H]. destruct (members_entry room m) as [->|He]; [intros []|].
  now apply (H room).
Qed.

Lemma untracked_scrub (x y : WebSocket) (m : ConnectionManager) :
  untracked x m -> untracked x (scrub y m).
Proof.
  intros [Ha Hr]. split; simpl.
  - intros H. apply Ha. eapply PyListFacts.In_remove. exact H.
  - intros room members Hin. apply in_map_iff in Hin.
    destruct Hin as [[r l] [[= <- <-] Hin]]. simpl.
    intros H. apply (Hr r l Hin). eapply PyListFacts.In_remove. exact H.
Qed.

Lemma untracked_joined (x y : WebSocket) (room : string) (m : ConnectionManager) :
  y <> x -> untracked x m -> untracked x (joined y room m).
Proof.
  intros Hne Hu. pose proof (untracked_members x room m Hu) as Hm.
  destruct Hu as [Ha Hr]. rewrite joined_rooms1. split; simpl.
  - intros H. apply in_app_iff in H. destruct H as [H|[H|[]]]; [now apply Ha|].
    now apply Hne.
  - intros r l Hin. apply In_set in Hin. destruct Hin as [[= -> ->]|Hin].
    + intros H. apply in_app_iff in H.
      destruct H as [H|[H|[]]]; [now apply Hm|now apply Hne].
    + apply In_rooms1 in Hin. destruct Hin as [->|Hin]; [intros []|].
      now apply (Hr r).
Qed.

(** A socket that is in no list of the manager stays out and gets no
    message, whatever call is made, until it is connected again or a
    message is sent to it alone. *)
Theorem untracked_socket_is_left_alone (w : World) (c : call) (x : WebSocket) :
  untracked x (manager w) ->
  addresses x c = false ->
  untracked x (manager (step w c)) /\
  ~ In x (map target (new_attempts w (step w c))).
Proof.
  intros Hu Hc. split.
  - destruct (manager_step now send_json_raises w c) as [gone ->].
    apply (scrub_all_preserves (untracked x)).
    + intros y m. apply untracked_scrub.
    + destruct c; simpl; try assumption.
      apply untracked_joined; [|assumption].
      simpl in Hc. now apply Nat.eqb_neq in Hc.
  - intros H. apply step_recipients in H.
    destruct c as [ws room|ws|m ws|room m exclude|m|room| |]; simpl in *.
    + destruct H as [H _]. now apply (untracked_members x room _ Hu).
    + exact H.
    + subst ws. rewrite Nat.eqb_refl in Hc. discriminate.
    + destruct H as [H _]. now apply (untracked_members x room _ Hu).
    + now apply Hu.
    + exact H.
    + exact H.
    + destruct H as [room [m [rest [_ H]]]].
      now apply (untracked_members x room _ Hu).
Qed.

End RecipientFacts.

Lemma untracked_socket_is_left_alone_witness :
  let c := BroadcastToAll Scenario.hello in
  let w := Scenario.three_in_general in
  untracked 7 (manager w) /\
  addresses 7 c = false /\
  untracked 7 (manager (step Scenario.clock Scenario.all_dead w c)).
Proof.
  assert (Hu : untracked 7 (manager Scenario.three_in_general)).
  { split.
    - vm_compute. intuition discriminate.
    - intros room members H. vm_compute in H. destruct H as [H|[]].
      injection H as <- <-. simpl. intuition discriminate. }
  split; [exact Hu|]. split; [reflexivity|].
  exact (proj1 (untracked_socket_is_left_alone Scenario.clock Scenario.all_dead
                  Scenario.three_in_general (BroadcastToAll Scenario.hello) 7
                  Hu eq_refl)).
Defined.


(** * The endpoint of the chat rooms *)

Lemma is_str_false_of_other (s s' : string) (v : json) :
  s <> s' -> is_str s v = true -> is_str s' v = false.
Proof.
  destruct v; simpl; try discriminate.
  intros Hne H. apply String.eqb_eq in H. subst. now apply String.eqb_neq.
Qed.

Section EndpointFacts.
Variable now : string.
Variable send_json_raises : list attempt -> WebSocket -> message -> bool.
Variable dumps : json -> string.
Variable py_str : json -> string.

Local Abbreviation step := (step now send_json_raises).
Local Abbreviation handle := (handle_message now send_json_raises dumps py_str).
Local Abbreviation dispatched := (dispatch now dumps py_str).
Local Abbreviation serve := (receive_loop now send_json_raises dumps py_str).
Local Abbreviation endpoint :=
  (websocket_endpoint now send_json_raises dumps py_str).

Lemma send_personal_message_step (m : message) (c : WebSocket) (w : World) :
  send_personal_message now send_json_raises m c w
  = (Returned, step w (SendPersonalMessage m c)).
Proof.
  simpl. unfold send_personal_message.
  now destruct (send_json send_json_raises c m w) as [[|] w'].
Qed.

Lemma handle_message_dispatch (websocket : WebSocket) (room : string)
    (fields : PyDict.dict json) (w : World) :
  handle websocket room (JObj fields) w
  = (Returned, step w (dispatched websocket room fields w)).
Proof.
  unfold handle_message, dispatch.
  destruct (is_str "chat" _); [reflexivity|].
  destruct (is_str "ping" _); [apply send_personal_message_step|].
  destruct (is_str "get_stats" _); [apply send_personal_message_step|].
  destruct (is_str "broadcast" _); [|apply send_personal_message_step].
  destruct (is_str "admin123" _); [reflexivity|].
  apply send_personal_message_step.
Qed.

Lemma handle_message_not_dict (websocket : WebSocket) (room : string)
    (data : json) (w : World) :
  ends_handler (Received data) = true ->
  handle websocket room data w = (Raised, w).
Proof. destruct data; simpl; try reflexivity. discriminate. Qed.

Lemma dispatch_kind (websocket : WebSocket) (room : string)
    (fields : PyDict.dict json) (w : World) :
  match dispatched websocket room fields w with
  | BroadcastToRoom r _ exclude =>
      r = room /\ exclude = None /\ is_chat fields = true
  | BroadcastToAll _ => is_chat fields = false /\ is_admin_broadcast fields = true
  | SendPersonalMessage _ c =>
      c = websocket /\ is_chat fields = false /\ is_admin_broadcast fields = false
  | _ => False
  end.
Proof.
  unfold dispatch, is_chat, is_admin_broadcast.
  destruct (is_str "chat" _) eqn:Ec.
  { repeat split. }
  destruct (is_str "ping" _) eqn:Ep.
  { repeat split.
    rewrite (is_str_false_of_other "ping" "broadcast"); [reflexivity| |exact Ep].
    discriminate. }
  destruct (is_str "get_stats" _) eqn:Eg.
  { repeat split.
    rewrite (is_str_false_of_other "get_stats" "broadcast"); [reflexivity| |exact Eg].
    discriminate. }
  destruct (is_str "broadcast" _) eqn:Eb; [|repeat split].
  destruct (is_str "admin123" _); repeat split.
Qed.

Lemma dispatch_not_connect (websocket : WebSocket) (room : string)
    (fields : PyDict.dict json) (w : World) :
  after_join (dispatched websocket room fields w) (manager w) = manager w.
Proof.
  pose proof (dispatch_kind websocket room fields w) as H.
  destruct (dispatched websocket room fields w); simpl; try reflexivity.
  destruct H.
Qed.

Lemma serve_returns (websocket : WebSocket) (room : string)
    (arrivals : list arrival) :
  forall w, fst (serve websocket room arrivals w) = existsb ends_handler arrivals.
Proof.
  induction arrivals as [|a arrivals IH]; intros w; [reflexivity|].
  destruct a as [data| |c]; simpl.
  - destruct data; try reflexivity.
    fold (handle websocket room (JObj fields) w).
    rewrite handle_message_dispatch. apply IH.
  - reflexivity.
  - apply IH.
Qed.

(** The handler returns exactly when [receive_json] fails or hands it a
    value that is not a dict; as long as the client sends dicts,
    whatever they hold, it keeps serving. *)
Theorem handler_returns_on_bad_input_only (websocket : WebSocket)
    (room : string) (arrivals : list arrival) (w : World) :
  fst (endpoint websocket room arrivals w) = existsb ends_handler arrivals.
Proof.
  unfold websocket_endpoint.
  generalize (connect now send_json_raises websocket room w). clear w.
  induction arrivals as [|a arrivals IH]; intros w; [reflexivity|].
  destruct a as [data| |c]; simpl.
  - destruct data; try reflexivity.
    fold (handle websocket room (JObj fields) w).
    rewrite handle_message_dispatch. apply IH.
  - reflexivity.
  - apply IH.
Qed.

Lemma personal_recipient (m : message) (c : WebSocket) (w : World) :
  map target (new_attempts w (snd (send_personal_message now send_json_raises m c w)))
  = [c].
Proof.
  unfold send_personal_message, send_json.
  destruct (send_json_raises (sent w) c m); simpl.
  - unfold new_attempts. rewrite sent_disconnect. simpl.
    now rewrite skipn_length_app.
  - now rewrite new_attempts_app.
Qed.


(** No message of a client adds a socket to [active_connections] or to
    a room's list, and none creates or deletes a room: whatever the
    handler is sent, the rooms stay the same and every socket found in a
    list afterwards was in it before. *)
Theorem messages_add_nobody (websocket : WebSocket) (room : string)
    (data : json) (w : World) :
  let m' := manager (snd (handle websocket room data w)) in
  PyDict.keys (rooms m') = PyDict.keys (rooms (manager w)) /\
  (forall x, in_registry x m' -> in_registry x (manager w)) /\
  (forall x r, in_room x r m' -> in_room x r (manager w)).
Proof.
  simpl.
  assert (E : exists gone,
             manager (snd (handle websocket room data w))
             = scrub_all gone (manager w)).
  { destruct data; try (now exists []).
    rewrite handle_message_dispatch. simpl.
    destruct (manager_step now send_json_raises w
                (dispatched websocket room fields w)) as [gone H].
    exists gone. now rewrite H, dispatch_not_connect. }
  destruct E as [gone ->]. unfold in_registry, in_room.
  split; [apply keys_scrub_all|]. split.
  - intros x. rewrite scrub_all_lists. simpl. apply In_remove_all.
  - intros x r. rewrite members_scrub_all. apply In_remove_all.
Qed.

Lemma count_remove_all_le (gone l : list WebSocket) (x : WebSocket) :
  count_occ ws_eq_dec (remove_all gone l) x <= count_occ ws_eq_dec l x.
Proof.
  unfold remove_all. revert l.
  induction gone as [|y gone IH]; intros l; simpl; [lia|].
  etransitivity; [apply IH|].
  destruct (ws_eq_dec y x) as [->|Hne].
  - rewrite PyListFacts.count_remove_same. lia.
  - rewrite PyListFacts.count_remove_other by assumption. lia.
Qed.

(** A step that is not a [connect] of the socket keeps the rooms within
    the registry and the socket at most once in the registry. *)
Lemma tidy_step (w : World) (c : call) (x : WebSocket) :
  (forall r, c <> Connect x r) ->
  rooms_within_registry (manager w) ->
  count_occ ws_eq_dec (active_connections (manager w)) x <= 1 ->
  rooms_within_registry (manager (step w c)) /\
  count_occ ws_eq_dec (active_connections (manager (step w c))) x <= 1.
Proof.
  intros Hc Hw Hx. split; [now apply within_step|].
  destruct (manager_step now send_json_raises w c) as [gone ->].
  rewrite scrub_all_lists. simpl.
  etransitivity; [apply count_remove_all_le|].
  destruct c as [ws r| | | | | | |]; simpl; try assumption.
  rewrite count_occ_app. simpl.
  destruct (ws_eq_dec ws x) as [->|Hne]; [now destruct (Hc r)|lia].
Qed.

Lemma tidy_untracked (w : World) (x : WebSocket) :
  rooms_within_registry (manager w) ->
  count_occ ws_eq_dec (active_connections (manager w)) x <= 1 ->
  untracked x (manager (disconnect now x w)).
Proof.
  intros Hw Hx. rewrite manager_disconnect.
  apply scrub_at_most_once_untracked. split; [exact Hx|].
  intros r l Hin. specialize (Hw x r l Hin). lia.
Qed.

Lemma serve_cleans_up (websocket : WebSocket) (room : string)
    (arrivals : list arrival) :
  forall w,
    rooms_within_registry (manager w) ->
    count_occ ws_eq_dec (active_connections (manager w)) websocket <= 1 ->
    no_rejoin websocket arrivals = true ->
    existsb ends_handler arrivals = true ->
    untracked websocket (manager (snd (serve websocket room arrivals w))).
Proof.
  induction arrivals as [|a arrivals IH]; intros w Hw Hx Hn He; [discriminate|].
  simpl in Hn. apply andb_true_iff in Hn. destruct Hn as [Ha Hn].
  destruct a as [data| |c]; simpl.
  - destruct data; try (now apply tidy_untracked).
    fold (handle websocket room (JObj fields) w).
    rewrite handle_message_dispatch. simpl in He.
    pose proof (dispatch_kind websocket room fields w) as Hk.
    destruct (tidy_step w (dispatched websocket room fields w) websocket)
      as [Hw' Hx']; try assumption.
    { intros r E. rewrite E in Hk. exact Hk. }
    now apply IH.
  - now apply tidy_untracked.
  - simpl in He.
    destruct (tidy_step w c websocket) as [Hw' Hx']; try assumption.
    { intros r ->. rewrite Nat.eqb_refl in Ha. discriminate. }
    now apply IH.
Qed.

(** The handler leaves nothing behind: if the socket was not in
    [active_connections] when the handler started, every room member was
    in the registry, and no other task connects the socket again, then
    when the handler returns the socket is in no list of the manager,
    whatever was sent and whatever the other tasks did meanwhile. *)
Theorem endpoint_cleans_up (websocket : WebSocket) (room : string)
    (arrivals : list arrival) (w : World) :
  rooms_within_registry (manager w) ->
  ~ in_registry websocket (manager w) ->
  no_rejoin websocket arrivals = true ->
  fst (endpoint websocket room arrivals w) = true ->
  untracked websocket (manager (snd (endpoint websocket room arrivals w))).
Proof.
  intros Hw Hx Hn He. unfold websocket_endpoint in *.
  rewrite serve_returns in He.
  pose proof (within_step now send_json_raises w (Connect websocket room) Hw)
    as Hw'.
  apply serve_cleans_up; try assumption.
  change (connect now send_json_raises websocket room w)
    with (step w (Connect websocket room)).
  destruct (manager_step now send_json_raises w (Connect websocket room))
    as [gone ->].
  rewrite scrub_all_lists. simpl.
  etransitivity; [apply count_remove_all_le|].
  rewrite count_occ_app. simpl.
  apply (count_occ_not_In ws_eq_dec) in Hx.
  destruct (ws_eq_dec websocket websocket); [lia|congruence].
Qed.

End EndpointFacts.


Lemma messages_add_nobody_witness :
  let w := Scenario.three_in_general in
  let m' := manager (snd (handle_message Scenario.clock
                            (Scenario.dead Scenario.carol)
                            Client.dumps Client.py_str Scenario.bob "general"
                            Client.says_hi w)) in
  in_registry Scenario.alice m' /\ in_registry Scenario.alice (manager w).
Proof.
  assert (H : in_registry Scenario.alice
                (manager (snd (handle_message Scenario.clock
                                 (Scenario.dead Scenario.carol)
                                 Client.dumps Client.py_str Scenario.bob
                                 "general" Client.says_hi
                                 Scenario.three_in_general))))
    by (vm_compute; tauto).
  split; [exact H|].
  exact (proj1 (proj2 (messages_add_nobody Scenario.clock
                         (Scenario.dead Scenario.carol)
                         Client.dumps Client.py_str Scenario.bob "general"
                         Client.says_hi Scenario.three_in_general))
               Scenario.alice H).
Defined.

Lemma rooms_within_registry_lobby : rooms_within_registry (manager Client.lobby).
Proof. apply within_run. exact within_empty. Qed.

Lemma endpoint_cleans_up_witness :
  let r := websocket_endpoint Scenario.clock Scenario.all_alive
             Client.dumps Client.py_str Scenario.bob "general"
             Client.bob_session Client.lobby in
  rooms_within_registry (manager Client.lobby) /\
  ~ in_registry Scenario.bob (manager Client.lobby) /\
  no_rejoin Scenario.bob Client.bob_session = true /\
  fst r = true /\
  untracked Scenario.bob (manager (snd r)).
Proof.
  assert (Hx : ~ in_registry Scenario.bob (manager Client.lobby))
    by (vm_compute; intuition discriminate).
  assert (He : fst (websocket_endpoint Scenario.clock Scenario.all_alive
                      Client.dumps Client.py_str Scenario.bob "general"
                      Client.bob_session Client.lobby) = true)
    by (vm_compute; reflexivity).
  split; [exact rooms_within_registry_lobby|]. split; [exact Hx|].
  split; [reflexivity|]. split; [exact He|].
  exact (endpoint_cleans_up Scenario.clock Scenario.all_alive
           Client.dumps Client.py_str Scenario.bob "general"
           Client.bob_session Client.lobby
           rooms_within_registry_lobby Hx eq_refl He).
Defined.

(** Bob's session in the lobby: his chat reaches Alice and himself, Carol
    joins meanwhile, and the JSON array ends the handler, which leaves
    Alice and Carol in "general". *)
Example bob_session_runs :
  let r := websocket_endpoint Scenario.clock Scenario.all_alive
             Client.dumps Client.py_str Scenario.bob "general"
             Client.bob_session Client.lobby in
  fst r = true /\
  manager (snd r)
  = mkManager [Scenario.alice; Scenario.carol]
              [("general"%string, [Scenario.alice; Scenario.carol])].
Proof. vm_compute. split; reflexivity. Qed.

(** * The queue of notifications runs dry *)

Section DrainFacts.
Variable now : string.
Variable send_json_raises : list attempt -> WebSocket -> message -> bool.

Local Abbreviation run_oldest := (tick now send_json_raises).
Local Abbreviation run_oldest_times := (ticks now send_json_raises).

Lemma members_after_disconnect (c : WebSocket) (d : PyDict.dict (list WebSocket)) :
  List.length
    (all_members (map (fun kv => (fst kv, PyList.remove ws_eq_dec c (snd kv))) d))
  + List.length (rooms_holding c d)
  = List.length (all_members d).
Proof.
  unfold all_members, rooms_holding.
  induction d as [|[k l] d IH]; simpl; [reflexivity|].
  rewrite !length_app.
  destruct (PyList.contains ws_eq_dec c l) eqn:E; simpl.
  - apply PyListFacts.contains_In in E.
    rewrite (length_remove _ _ E).
    destruct l as [|y l]; [destruct E|]. simpl in *. lia.
  - apply PyListFacts.contains_false in E.
    rewrite (PyListFacts.remove_absent ws_eq_dec _ _ E). lia.
Qed.

Lemma backlog_disconnect (c : WebSocket) (w : World) :
  backlog (disconnect now c w) <= backlog w.
Proof.
  unfold backlog. rewrite pending_disconnect, manager_disconnect. simpl.
  rewrite length_app, length_map.
  pose proof (members_after_disconnect c (rooms (manager w))). lia.
Qed.

Lemma backlog_disconnect_all (gone : list WebSocket) (w : World) :
  backlog (disconnect_all now gone w) <= backlog w.
Proof.
  unfold disconnect_all. revert w.
  induction gone as [|c gone IH]; intros w; simpl; [lia|].
  etransitivity; [apply IH|apply backlog_disconnect].
Qed.

Lemma backlog_tick (w : World) :
  pending w <> [] -> backlog (run_oldest w) < backlog w.
Proof.
  intros Hp. unfold tick.
  destruct (pending w) as [|[room m] rest] eqn:E; [congruence|].
  simpl. rewrite broadcast_to_room_fan_out. unfold fan_out.
  eapply Nat.le_lt_trans; [apply backlog_disconnect_all|].
  unfold backlog. simpl. rewrite E. simpl. lia.
Qed.

Lemma ticks_idle (n : nat) (w : World) :
  pending w = [] -> run_oldest_times n w = w.
Proof.
  intros Hp. induction n as [|n IH]; simpl; [reflexivity|].
  unfold tick at 1. now rewrite Hp.
Qed.

(** The notifications do not cascade for ever: each task the event loop
    runs either leaves the queue shorter or takes sockets out of rooms,
    so after as many runs as the backlog allows the queue is empty,
    however many sends fail on the way. *)
Theorem notifications_run_dry (n : nat) (w : World) :
  backlog w <= n -> pending (run_oldest_times n w) = [].
Proof.
  revert w. induction n as [|n IH]; intros w Hb; simpl.
  - unfold backlog in Hb. destruct (pending w); [reflexivity|simpl in Hb; lia].
  - destruct (pending w) as [|t rest] eqn:E.
    + unfold tick at 1. rewrite E. rewrite ticks_idle; assumption.
    + apply IH.
      assert (H : backlog (run_oldest w) < backlog w)
        by (apply backlog_tick; rewrite E; discriminate).
      lia.
Qed.

End DrainFacts.

Lemma notifications_run_dry_witness :
  let w := disconnect Scenario.clock Scenario.bob Scenario.three_in_general in
  backlog w <= 5 /\
  pending (ticks Scenario.clock Scenario.all_dead 5 w) = [].
Proof.
  assert (H : backlog (disconnect Scenario.clock Scenario.bob
                                  Scenario.three_in_general) <= 5)
    by (vm_compute; lia).
  split; [exact H|].
  exact (notifications_run_dry Scenario.clock Scenario.all_dead 5
           (disconnect Scenario.clock Scenario.bob Scenario.three_in_general) H).
Defined.

(** * The echo and the notification endpoints *)

Section StreamFacts.
Variable now : string.
Variable send_json_raises : list attempt -> WebSocket -> message -> bool.
Variable dumps : json -> string.
Variable py_str : json -> string.

Local Abbreviation stream := (sends_until_failure send_json_raises).

Lemma stream_targets (history : list attempt) (c : WebSocket) (msgs : list message) :
  Forall (fun a => target a = c) (stream history c msgs).
Proof.
  revert history. induction msgs as [|m msgs IH]; intros history; simpl;
    constructor; [reflexivity|].
  destruct (send_json_raises history c m); [constructor|apply IH].
Qed.

Lemma stream_contents (history : list attempt) (c : WebSocket) (msgs : list message) :
  map content (stream history c msgs)
  = firstn (List.length (stream history c msgs)) msgs.
Proof.
  revert history. induction msgs as [|m msgs IH]; intros history; simpl;
    [reflexivity|].
  f_equal. destruct (send_json_raises history c m); [reflexivity|apply IH].
Qed.

(** No send follows one that raised. *)
Lemma stream_stops (history : list attempt) (c : WebSocket) (msgs : list message) :
  forall pre a post,
    stream history c msgs = pre ++ a :: post ->
    post <> [] -> delivered a = true.
Proof.
  revert history. induction msgs as [|m msgs IH]; intros history pre a post; simpl.
  - destruct pre; discriminate.
  - destruct pre as [|b pre]; simpl; intros H Hp; injection H as Hb H.
    + subst a. simpl. destruct (send_json_raises history c m); [|reflexivity].
      symmetry in H. now destruct Hp.
    + destruct (send_json_raises history c m); [destruct pre; discriminate|].
      eapply IH; eassumption.
Qed.

(** When every send is delivered, every message is sent. *)
Lemma stream_complete (history : list attempt) (c : WebSocket) (msgs : list message) :
  Forall (fun a => delivered a = true) (stream history c msgs) ->
  List.length (stream history c msgs) = List.length msgs.
Proof.
  revert history. induction msgs as [|m msgs IH]; intros history; simpl;
    [reflexivity|].
  intros H. inversion H as [|? ? Ha Hr]; subst. simpl in Ha.
  destruct (send_json_raises history c m); [discriminate|].
  f_equal. now apply IH.
Qed.

Lemma echo_stream (c : WebSocket) (received : list (option string)) :
  forall w,
    echo_websocket now send_json_raises dumps c received w
    = mkWorld (manager w)
              (sent w ++ stream (sent w) c
                           (map (echo_response now dumps) (texts_received received)))
              (pending w).
Proof.
  induction received as [|[data|] rest IH]; intros w; simpl;
    try (rewrite app_nil_r; now destruct w).
  unfold send_json.
  destruct (send_json_raises (sent w) c (echo_response now dumps data)); simpl.
  - reflexivity.
  - rewrite IH. simpl. now rewrite <- app_assoc.
Qed.

(** The echo endpoint answers the texts it receives one by one, in
    order, each with the text it answers and to its own socket; it makes
    no send after a send or a receive that raised, answers every text if
    nothing raises, and never touches the manager or the task queue. *)
Theorem echo_answers_in_order (c : WebSocket) (received : list (option string))
    (w : World) :
  let w' := echo_websocket now send_json_raises dumps c received w in
  let atts := new_attempts w w' in
  let answers := map (echo_response now dumps) (texts_received received) in
  manager w' = manager w /\
  pending w' = pending w /\
  Forall (fun a => target a = c) atts /\
  map content atts = firstn (List.length atts) answers /\
  (forall pre a post, atts = pre ++ a :: post -> post <> [] -> delivered a = true) /\
  (Forall (fun a => delivered a = true) atts ->
   List.length atts = List.length (texts_received received)).
Proof.
  simpl. rewrite echo_stream, new_attempts_app. simpl.
  split; [reflexivity|]. split; [reflexivity|].
  split; [apply stream_targets|]. split; [apply stream_contents|].
  split; [apply stream_stops|].
  intros H. rewrite (stream_complete _ _ _ H). apply length_map.
Qed.

Lemma periodic_stream (c : WebSocket) (rounds : nat) :
  forall counter w,
    periodic now send_json_raises dumps py_str c rounds counter w
    = mkWorld (manager w)
              (sent w ++ stream (sent w) c
                           (map (notification now dumps py_str)
                                (seq (S counter) rounds)))
              (pending w).
Proof.
  induction rounds as [|k IH]; intros counter w; simpl.
  - rewrite app_nil_r. now destruct w.
  - unfold send_json. rewrite Nat.add_1_r.
    destruct (send_json_raises (sent w) c
                (notification now dumps py_str (S counter))); simpl.
    + reflexivity.
    + rewrite IH. simpl. now rewrite <- app_assoc.
Qed.

(** The notification endpoint sends one welcome and then the
    notifications numbered 1, 2, 3, ... without a gap, one for each sleep
    that has passed, all to its own socket; it stops with the first send
    that raises and never touches the manager or the task queue. *)
Theorem notifications_are_numbered (c : WebSocket) (rounds : nat) (w : World) :
  let w' := notifications_websocket now send_json_raises dumps py_str c rounds w in
  let atts := new_attempts w w' in
  let planned := welcome now dumps
                 :: map (notification now dumps py_str) (seq 1 rounds) in
  manager w' = manager w /\
  pending w' = pending w /\
  Forall (fun a => target a = c) atts /\
  map content atts = firstn (List.length atts) planned /\
  (forall pre a post, atts = pre ++ a :: post -> post <> [] -> delivered a = true) /\
  (Forall (fun a => delivered a = true) atts ->
   List.length atts = S rounds).
Proof.
  simpl.
  assert (E : notifications_websocket now send_json_raises dumps py_str c rounds w
              = mkWorld (manager w)
                  (sent w ++ stream (sent w) c
                     (welcome now dumps
                      :: map (notification now dumps py_str) (seq 1 rounds)))
                  (pending w)).
  { unfold notifications_websocket, send_json. simpl.
    destruct (send_json_raises (sent w) c (welcome now dumps)); simpl;
      [reflexivity|].
    rewrite periodic_stream. simpl. now rewrite <- app_assoc. }
  rewrite E, new_attempts_app. simpl manager. simpl pending.
  split; [reflexivity|]. split; [reflexivity|].
  split; [apply stream_targets|]. split; [apply stream_contents|].
  split; [apply stream_stops|].
  intros H. rewrite (stream_complete _ _ _ H). simpl.
  now rewrite length_map, length_seq.
Qed.

End StreamFacts.

(** Three texts and a socket that dies at the second answer. *)
Example echo_stops_at_failure :
  let raises := fun (h : list attempt) (_ : WebSocket) (_ : message) =>
                  Nat.eqb (List.length h) 1 in
  map delivered
      (new_attempts empty_world
         (echo_websocket Scenario.clock raises Client.dumps Scenario.alice
                         [Some "a"; Some "b"; Some "c"]%string empty_world))
  = [true; false].
Proof. reflexivity. Qed.

(** * The loops among the other tasks *)

(** ** Lists of sends *)

Lemma first_target_none (l : list WebSocket) (exclude : option WebSocket) :
  first_target l exclude = None -> targets l exclude = [].
Proof.
  unfold targets. induction l as [|x l IH]; simpl; [reflexivity|].
  destruct (is_excluded x exclude); simpl; [|discriminate].
  destruct (first_target l exclude) as [[k c]|]; [discriminate|].
  intros _. now apply IH.
Qed.

Lemma first_target_some (l : list WebSocket) (exclude : option WebSocket)
    (k : nat) (c : WebSocket) :
  first_target l exclude = Some (k, c) ->
  targets l exclude = c :: targets (skipn (S k) l) exclude /\
  is_excluded c exclude = false /\
  In c l.
Proof.
  unfold targets. revert k. induction l as [|x l IH]; intros k; simpl;
    [discriminate|].
  destruct (is_excluded x exclude) eqn:E; simpl.
  - destruct (first_target l exclude) as [[k' c']|]; [|discriminate].
    intros [= <- <-]. destruct (IH k' eq_refl) as [H1 [H2 H3]].
    split; [exact H1|]. split; [exact H2|now right].
  - intros [= <- <-]. split; [reflexivity|].
    split; [exact E|now left].
Qed.

Lemma first_target_app (a b : list WebSocket) (exclude : option WebSocket)
    (k : nat) (c : WebSocket) :
  first_target a exclude = Some (k, c) ->
  first_target (a ++ b) exclude = Some (k, c).
Proof.
  revert k. induction a as [|x a IH]; intros k; simpl; [discriminate|].
  destruct (is_excluded x exclude); [|easy].
  destruct (first_target a exclude) as [[k' c']|]; [|discriminate].
  intros [= <- <-]. now rewrite (IH k' eq_refl).
Qed.


(** When no socket whose send raised was sent to twice, the sockets that
    failed are listed once each, and the others that were sent to got
    the message. *)
Lemma failed_once (atts : list attempt) :
  (forall x, In x (failed atts) ->
             count_occ ws_eq_dec (map target atts) x <= 1) ->
  NoDup (failed atts) /\
  forall x, In x (received atts)
            <-> In x (map target atts) /\ ~ In x (failed atts).
Proof.
  induction atts as [|a atts IH]; intros H.
  - split; [constructor|]. intros x. simpl. tauto.
  - assert (H' : forall x, In x (failed atts) ->
                           count_occ ws_eq_dec (map target atts) x <= 1).
    { intros x Hx.
      assert (Hin : In x (failed (a :: atts))).
      { unfold failed in *. simpl. destruct (negb (delivered a)); [now right|exact Hx]. }
      specialize (H x Hin). simpl in H. destruct (ws_eq_dec (target a) x); lia. }
    destruct (IH H') as [Hnd Hiff].
    unfold failed, received in *. simpl in *.
    destruct (delivered a) eqn:D; simpl in *.
    + assert (Ha : ~ In (target a)
                     (map target (filter (fun a0 => negb (delivered a0)) atts))).
      { intros Hin. pose proof (H _ Hin) as Hc.
        destruct (ws_eq_dec (target a) (target a)); [|congruence].
        assert (Hm : In (target a) (map target atts)).
        { apply in_map_iff in Hin. destruct Hin as [b [Hb Hf]].
          apply filter_In in Hf. apply in_map_iff. exists b. tauto. }
        apply (count_occ_In ws_eq_dec) in Hm. lia. }
      split; [exact Hnd|]. intros x. rewrite Hiff. split.
      * intros [<-|[H1 H2]]; [split; [now left|exact Ha]|split; [now right|exact H2]].
      * intros [[<-|H1] H2]; [now left|right; now split].
    + assert (Ha : ~ In (target a) (map target atts)).
      { intros Hm. pose proof (H (target a) (or_introl eq_refl)) as Hc.
        destruct (ws_eq_dec (target a) (target a)); [|congruence].
        apply (count_occ_In ws_eq_dec) in Hm. lia. }
      split.
      * constructor; [|exact Hnd]. intros Hin. apply Ha.
        apply in_map_iff in Hin. destruct Hin as [b [Hb Hf]].
        apply filter_In in Hf. apply in_map_iff. exists b. tauto.
      * intros x. rewrite Hiff. split.
        -- intros [H1 H2]. split; [now right|].
           intros [<-|H3]; [now apply Ha|now apply H2].
        -- intros [[<-|H1] H2]; [exfalso; apply H2; now left|].
           split; [exact H1|]. intros H3. apply H2. now right.
Qed.

(** Removing is filtering for a socket that is in the list once at most. *)
Lemma remove_filter_once (x : WebSocket) (l : list WebSocket) :
  count_occ ws_eq_dec l x <= 1 ->
  PyList.remove ws_eq_dec x l
  = filter (fun y => if ws_eq_dec x y then false else true) l.
Proof.
  induction l as [|y l IH]; simpl; [reflexivity|].
  destruct (ws_eq_dec y x) as [->|Hne]; intros H.
  - destruct (ws_eq_dec x x); [|congruence].
    symmetry. apply forallb_filter_id. apply forallb_forall. intros z Hz.
    destruct (ws_eq_dec x z) as [<-|]; [|reflexivity].
    apply (count_occ_In ws_eq_dec) in Hz. lia.
  - destruct (ws_eq_dec x y); [congruence|]. now rewrite IH.
Qed.

Lemma count_remove_le (x y : WebSocket) (l : list WebSocket) :
  count_occ ws_eq_dec (PyList.remove ws_eq_dec x l) y <= count_occ ws_eq_dec l y.
Proof.
  destruct (ws_eq_dec x y) as [->|Hne].
  - rewrite PyListFacts.count_remove_same. lia.
  - rewrite PyListFacts.count_remove_other by assumption. lia.
Qed.

Lemma remove_all_without_once (gone l : list WebSocket) :
  (forall x, In x gone -> count_occ ws_eq_dec l x <= 1) ->
  remove_all gone l = without gone l.
Proof.
  unfold remove_all. revert l.
  induction gone as [|x gone IH]; intros l H; simpl.
  - now rewrite without_nil.
  - rewrite IH.
    + rewrite without_cons, remove_filter_once; [reflexivity|].
      apply H. now left.
    + intros y Hy. etransitivity; [apply count_remove_le|].
      apply H. now right.
Qed.

Lemma In_skipn_in (i : nat) (l : list WebSocket) (x : WebSocket) :
  In x (skipn i l) -> In x l.
Proof.
  intros H. rewrite <- (firstn_skipn i l). apply in_or_app. now right.
Qed.

(** ** The first loop, whatever the other tasks do *)

Section LiveFacts.
Variable now : string.
Variable send_json_raises : list attempt -> WebSocket -> message -> bool.
Variable read : ConnectionManager -> list WebSocket.

Local Abbreviation live := (send_each_live now send_json_raises read).

(** The loop on its own. *)
Lemma live_alone (i : nat) (m : message) (exclude : option WebSocket) (w : World) :
  let atts := outcomes send_json_raises (sent w)
                       (targets (skipn i (read (manager w))) exclude) m in
  live [] i m exclude w
  = mkPassage (failed atts) atts [read (manager w)]
              (mkWorld (manager w) (sent w ++ atts) (pending w)).
Proof.
  simpl. rewrite send_each_outcomes. simpl. now rewrite new_attempts_app.
Qed.

Lemma live_failures (schedule : list (list event)) (m : message)
    (exclude : option WebSocket) :
  forall i w, failures (live schedule i m exclude w)
              = failed (own (live schedule i m exclude w)).
Proof.
  induction schedule as [|during later IH]; intros i w.
  - now rewrite live_alone.
  - simpl. destruct (first_target _ exclude) as [[k c]|]; [|reflexivity].
    unfold send_json. unfold failed in *.
    destruct (send_json_raises (sent w) c m); simpl; now rewrite IH.
Qed.

(** Each send of the loop carries the message, goes to a socket that is
    not excluded and that the pass found in the list, and is decided by
    that socket when it is made. *)
Lemma live_own (schedule : list (list event)) (m : message)
    (exclude : option WebSocket) :
  forall i w,
    Forall (fun a => content a = m /\
                     is_excluded (target a) exclude = false /\
                     (exists l, In l (readings (live schedule i m exclude w)) /\
                                In (target a) l) /\
                     (exists h, delivered a
                                = negb (send_json_raises h (target a) m)))
           (own (live schedule i m exclude w)).
Proof.
  induction schedule as [|during later IH]; intros i w.
  - rewrite live_alone. simpl.
    set (l := read (manager w)).
    assert (G : forall to h,
               (forall x, In x to -> In x l /\ is_excluded x exclude = false) ->
               Forall (fun a => content a = m /\
                                is_excluded (target a) exclude = false /\
                                (exists l0, In l0 [l] /\ In (target a) l0) /\
                                (exists h0, delivered a
                                   = negb (send_json_raises h0 (target a) m)))
                      (outcomes send_json_raises h to m)).
    { induction to as [|c to IHto]; intros h Hto; simpl; constructor.
      - simpl. destruct (Hto c (or_introl eq_refl)) as [H1 H2].
        repeat split; try assumption.
        + exists l. split; [now left|assumption].
        + now exists h.
      - apply IHto. intros x Hx. apply Hto. now right. }
    apply G. intros x Hx. unfold targets in Hx. apply filter_In in Hx.
    destruct Hx as [Hx He]. split.
    + eapply In_skipn_in. exact Hx.
    + now apply negb_true_iff in He.
  - simpl. destruct (first_target _ exclude) as [[k c]|] eqn:F; [|constructor].
    apply first_target_some in F. destruct F as [_ [He Hc]].
    unfold send_json.
    destruct (send_json_raises (sent w) c m) eqn:R; simpl;
      (constructor;
       [ simpl; repeat split; try assumption;
         [ exists (read (manager w)); split;
           [now left|eapply In_skipn_in; exact Hc]
         | exists (sent w); now rewrite R ]
       | eapply Forall_impl; [|apply IH];
         intros a [H1 [H2 [[l [H3 H4]] H5]]];
         repeat split; try assumption; exists l; split; [now right|assumption] ]).
Qed.

(** After the loop the list is as the last pass found it. *)
Lemma live_last_reading (schedule : list (list event)) (m : message)
    (exclude : option WebSocket) :
  forall i w,
    In (read (manager (after (live schedule i m exclude w))))
       (readings (live schedule i m exclude w)).
Proof.
  induction schedule as [|during later IH]; intros i w.
  - rewrite live_alone. simpl. now left.
  - simpl. destruct (first_target _ exclude) as [[k c]|]; [|now left].
    unfold send_json. simpl. right. apply IH.
Qed.

(** With the list the same at every pass, the loop sends to the sockets
    of the list, from its index on, in order. *)
Lemma live_steady (schedule : list (list event)) (m : message)
    (exclude : option WebSocket) (snapshot : list WebSocket) :
  forall i w,
    steady snapshot (live schedule i m exclude w) ->
    map target (own (live schedule i m exclude w))
    = targets (skipn i snapshot) exclude.
Proof.
  unfold steady.
  induction schedule as [|during later IH]; intros i w.
  - rewrite live_alone. simpl. intros H. inversion H as [|? ? Hl _]; subst.
    apply outcomes_targets.
  - simpl. destruct (first_target _ exclude) as [[k c]|] eqn:F.
    + unfold send_json. simpl. intros H. inversion H as [|? ? Hl Hr]; subst.
      apply first_target_some in F. destruct F as [F _]. rewrite F.
      f_equal. rewrite skipn_skipn, (IH _ _ Hr). f_equal. f_equal. lia.
    + simpl. intros H. inversion H as [|? ? Hl _]; subst.
      symmetry. now apply first_target_none.
Qed.

(** When nothing is taken out of the list, the loop sends to the sockets
    the list held at the start, from its index on, in order, and then to
    those it finds appended. *)
Lemma live_none_removed (schedule : list (list event)) (m : message)
    (exclude : option WebSocket) (snapshot : list WebSocket) :
  forall i w,
    none_removed snapshot (live schedule i m exclude w) ->
    exists more,
      map target (own (live schedule i m exclude w))
      = targets (skipn i snapshot) exclude ++ more.
Proof.
  unfold none_removed.
  induction schedule as [|during later IH]; intros i w.
  - rewrite live_alone. simpl. intros H. inversion H as [|? ? [more Hl] _]; subst.
    rewrite outcomes_targets, Hl, skipn_app, targets_app. now eexists.
  - simpl. destruct (first_target _ exclude) as [[k c]|] eqn:F.
    + unfold send_json. simpl. intros H.
      inversion H as [|? ? [more Hl] Hr]; subst.
      rewrite Hl, skipn_app in F.
      destruct (first_target (skipn i snapshot) exclude) as [[k' c']|] eqn:F'.
      * rewrite (first_target_app _ (skipn (i - List.length snapshot) more) _ _ _ F') in F. injection F as <- <-.
        apply first_target_some in F'. destruct F' as [F' _]. rewrite F'.
        destruct (IH _ _ Hr) as [more' Hm]. exists more'.
        rewrite <- app_comm_cons. f_equal.
        rewrite skipn_skipn, Hm. f_equal. f_equal. f_equal. lia.
      * rewrite (first_target_none _ _ F'). simpl. now eexists.
    + simpl. intros H. inversion H as [|? ? [more Hl] _]; subst.
      exists []. rewrite app_nil_r. symmetry.
      rewrite Hl, skipn_app in F.
      destruct (first_target (skipn i snapshot) exclude) as [[k' c']|] eqn:F'.
      * rewrite (first_target_app _ (skipn (i - List.length snapshot) more) _ _ _ F') in F. discriminate.
      * now apply first_target_none.
Qed.

End LiveFacts.

(** ** The broadcasts among the other tasks *)

Section LiveClaims.
Variable now : string.
Variable send_json_raises : list attempt -> WebSocket -> message -> bool.

Local Abbreviation room_loop := (room_passage now send_json_raises).
Local Abbreviation all_loop := (all_passage now send_json_raises).
Local Abbreviation tidy := (cleanup now).

(** With no other task at work the loops are those of [broadcast_to_room]
    and [broadcast_to_all]. *)
Lemma live_broadcasts_alone (room : string) (m : message)
    (exclude : option WebSocket) (w : World) :
  broadcast_to_room_live now send_json_raises [] room m exclude w
  = broadcast_to_room now send_json_raises room m exclude w /\
  broadcast_to_all_live now send_json_raises [] m w
  = broadcast_to_all now send_json_raises m w.
Proof.
  unfold broadcast_to_room_live, broadcast_to_all_live, cleanup,
    room_passage, all_passage, broadcast_to_room, broadcast_to_all.
  split.
  - unfold members_of.
    destruct (PyDict.get room (rooms (manager w))) as [members|] eqn:E;
      [|reflexivity].
    simpl. unfold members_of. rewrite E.
    now destruct (send_each send_json_raises members m exclude [] w).
  - simpl.
    now destruct (send_each send_json_raises (active_connections (manager w))
                            m None [] w).
Qed.

Lemma live_calls_alone (c : WebSocket) (room : string) (w : World) :
  connect_live now send_json_raises [] c room w
  = connect now send_json_raises c room w /\
  tick_live now send_json_raises [] w = tick now send_json_raises w.
Proof.
  split.
  - unfold connect_live, connect_passage, connect.
    exact (proj1 (live_broadcasts_alone room _ (Some c) _)).
  - unfold tick_live, tick_passage, tick.
    destruct (pending w) as [|[r m] rest]; [reflexivity|].
    exact (proj1 (live_broadcasts_alone r m None _)).
Qed.

(** The loop of a room is the loop over its list, or there is no room. *)
Lemma room_passage_cases (schedule : list (list event)) (room : string)
    (m : message) (exclude : option WebSocket) (w : World) :
  (members_of room (manager w) = [] /\
   room_loop schedule room m exclude w = mkPassage [] [] [] w) \/
  room_loop schedule room m exclude w
  = send_each_live now send_json_raises (members_of room) schedule 0 m exclude w.
Proof.
  unfold room_passage, members_of.
  destruct (PyDict.get room (rooms (manager w))); [now right|now left].
Qed.

Lemma room_passage_own (schedule : list (list event)) (room : string)
    (m : message) (exclude : option WebSocket) (w : World) :
  let p := room_loop schedule room m exclude w in
  failures p = failed (own p) /\
  Forall (fun a => content a = m /\
                   is_excluded (target a) exclude = false /\
                   (exists l, In l (readings p) /\ In (target a) l) /\
                   (exists h, delivered a = negb (send_json_raises h (target a) m)))
         (own p).
Proof.
  simpl. destruct (room_passage_cases schedule room m exclude w) as [[_ ->]| ->].
  - split; [reflexivity|constructor].
  - split; [apply live_failures|apply live_own].
Qed.

Lemma room_passage_steady (schedule : list (list event)) (room : string)
    (m : message) (exclude : option WebSocket) (w : World) :
  let p := room_loop schedule room m exclude w in
  steady (members_of room (manager w)) p ->
  map target (own p) = targets (members_of room (manager w)) exclude /\
  members_of room (manager (after p)) = members_of room (manager w).
Proof.
  simpl. destruct (room_passage_cases schedule room m exclude w) as [[E ->]| ->].
  - intros _. now rewrite E.
  - intros H. split.
    + now apply (live_steady now send_json_raises (members_of room)
                             schedule m exclude _ 0 w).
    + pose proof (live_last_reading now send_json_raises (members_of room)
                    schedule m exclude 0 w) as Hl.
      unfold steady in H. rewrite Forall_forall in H. now apply H in Hl.
Qed.

Lemma room_passage_none_removed (schedule : list (list event)) (room : string)
    (m : message) (exclude : option WebSocket) (w : World) (x : WebSocket) :
  let p := room_loop schedule room m exclude w in
  none_removed (members_of room (manager w)) p ->
  In x (members_of room (manager w)) -> exclude <> Some x ->
  In x (map target (own p)).
Proof.
  simpl. destruct (room_passage_cases schedule room m exclude w) as [[E ->]| ->].
  - rewrite E. intros _ [].
  - intros H Hx Hne.
    destruct (live_none_removed now send_json_raises (members_of room)
                schedule m exclude _ 0 w H) as [more ->].
    apply in_or_app. left. simpl. apply targets_In. now split.
Qed.

(** The second loop takes out the sockets that failed, and only them,
    when each is in the lists once at most. *)
Lemma cleanup_removes_failed (p : passage) :
  (forall x, In x (failures p) -> at_most_once x (manager (after p))) ->
  active_connections (manager (tidy p))
  = without (failures p) (active_connections (manager (after p))) /\
  forall r, members_of r (manager (tidy p))
            = without (failures p) (members_of r (manager (after p))).
Proof.
  intros H. unfold cleanup. rewrite manager_disconnect_all. split.
  - rewrite scrub_all_lists. simpl. apply remove_all_without_once.
    intros x Hx. apply (H x Hx).
  - intros r. rewrite members_scrub_all. apply remove_all_without_once.
    intros x Hx. destruct (H x Hx) as [_ Hr].
    destruct (members_entry r (manager (after p))) as [->|He]; [simpl; lia|].
    now apply (Hr r).
Qed.

(** What the sends of a loop come to when they went to the sockets of
    [addressed] and none that failed is there twice. *)
Lemma sends_settled (atts : list attempt) (addressed : list WebSocket) :
  map target atts = addressed ->
  (forall x, In x (failed atts) -> count_occ ws_eq_dec addressed x <= 1) ->
  List.length (received atts) + List.length (failed atts) = List.length addressed /\
  (forall x, In x (received atts) <-> In x addressed /\ ~ In x (failed atts)) /\
  NoDup (failed atts).
Proof.
  intros E H. subst addressed.
  split; [rewrite received_failed_length; symmetry; apply length_map|].
  destruct (failed_once atts H) as [Hnd Hiff]. now split.
Qed.



End LiveClaims.








(** ** The other loops among the other tasks *)

Section LiveExtras.
Variable now : string.
Variable send_json_raises : list attempt -> WebSocket -> message -> bool.
Variable dumps : json -> string.
Variable py_str : json -> string.

Local Abbreviation room_loop := (room_passage now send_json_raises).
Local Abbreviation all_loop := (all_passage now send_json_raises).
Local Abbreviation join_loop := (connect_passage now send_json_raises).
Local Abbreviation task_loop := (tick_passage now send_json_raises).
Local Abbreviation handle_live :=
  (handle_message_live now send_json_raises dumps py_str).

Lemma all_passage_own (schedule : list (list event)) (m : message) (w : World) :
  let q := all_loop schedule m w in
  failures q = failed (own q) /\
  Forall (fun a => content a = m /\
                   (exists l, In l (readings q) /\ In (target a) l) /\
                   (exists h, delivered a = negb (send_json_raises h (target a) m)))
         (own q).
Proof.
  simpl. unfold all_passage. split; [apply live_failures|].
  eapply Forall_impl; [|apply live_own]. intros a [H1 [_ [H2 H3]]]. now repeat split.
Qed.

Lemma all_passage_steady (schedule : list (list event)) (m : message) (w : World) :
  let q := all_loop schedule m w in
  steady (active_connections (manager w)) q ->
  map target (own q) = active_connections (manager w) /\
  active_connections (manager (after q)) = active_connections (manager w).
Proof.
  simpl. unfold all_passage. intros H. split.
  + rewrite (live_steady now send_json_raises active_connections
               schedule m None _ 0 w H).
    apply targets_none.
  + pose proof (live_last_reading now send_json_raises active_connections
                  schedule m None 0 w) as Hl.
    unfold steady in H. rewrite Forall_forall in H. now apply H in Hl.
Qed.

Lemma all_passage_none_removed (schedule : list (list event)) (m : message)
    (w : World) (x : WebSocket) :
  let q := all_loop schedule m w in
  none_removed (active_connections (manager w)) q ->
  In x (active_connections (manager w)) ->
  In x (map target (own q)).
Proof.
  simpl. unfold all_passage. intros H Hx.
  destruct (live_none_removed now send_json_raises active_connections
              schedule m None _ 0 w H) as [more ->].
  apply in_or_app. left. simpl. now rewrite targets_none.
Qed.

(** If [active_connections] is the same at every pass of the loop and
    every socket whose send fails is, when the cleanup starts, at most
    once in [active_connections] and in each room's list, then
    [broadcast_to_all] makes one send of the message to each socket of
    [active_connections], in order, takes exactly the sockets whose send
    raised out of [active_connections] and of every room, by one
    [disconnect] each, and keeps all others. *)
Theorem broadcast_to_all_live_cleanup (schedule : list (list event))
    (m : message) (w : World) :
  let q := all_loop schedule m w in
  let gone := failures q in
  let w' := broadcast_to_all_live now send_json_raises schedule m w in
  steady (active_connections (manager w)) q ->
  (forall x, In x gone -> at_most_once x (manager (after q))) ->
  map target (own q) = active_connections (manager w) /\
  Forall (fun a => content a = m) (own q) /\
  gone = failed (own q) /\
  (forall x, In x (received (own q))
             <-> In x (active_connections (manager w)) /\ ~ In x gone) /\
  w' = disconnect_all now gone (after q) /\
  NoDup gone /\
  active_connections (manager w')
  = without gone (active_connections (manager (after q))) /\
  (forall r, members_of r (manager w')
             = without gone (members_of r (manager (after q)))).
Proof.
  simpl. intros Hs Ho.
  destruct (all_passage_own schedule m w) as [Hf Hown].
  destruct (all_passage_steady schedule m w Hs) as [Ht Hm].
  assert (Hc : forall x, In x (failed (own (all_loop schedule m w))) ->
                         count_occ ws_eq_dec (active_connections (manager w)) x <= 1).
  { intros x Hx. rewrite <- Hf in Hx. destruct (Ho x Hx) as [Ha _].
    now rewrite <- Hm. }
  destruct (sends_settled _ _ Ht Hc) as [_ [Hiff Hnd]].
  destruct (cleanup_removes_failed now _ Ho) as [Ha Hr].
  split; [exact Ht|].
  split; [eapply Forall_impl; [|exact Hown]; now intros a [H _]|].
  split; [exact Hf|]. rewrite Hf.
  split; [exact Hiff|].
  split; [unfold broadcast_to_all_live, cleanup; now rewrite Hf|].
  split; [exact Hnd|]. rewrite <- Hf.
  split; [exact Ha|exact Hr].
Qed.

(** Whatever the other tasks do, [connect] sends nothing but a
    [user_joined] notification with the length of the room's list after
    the append, and none to the joining socket; if no other task takes a
    socket out of the room's list during the sends, every other socket
    that was in the list before gets one; and if the list is the same at
    every pass, the sends go to exactly those sockets, in list order. *)
Theorem connect_live_notifies_others (schedule : list (list event))
    (c : WebSocket) (room : string) (w : World) :
  let before := members_of room (manager w) in
  let p := join_loop schedule c room w in
  connect_live now send_json_raises schedule c room w = cleanup now p /\
  Forall (fun a => content a = user_joined now room (S (List.length before)))
         (own p) /\
  ~ In c (map target (own p)) /\
  (none_removed (before ++ [c]) p ->
   forall x, In x before -> x <> c -> In x (map target (own p))) /\
  (steady (before ++ [c]) p -> map target (own p) = targets before (Some c)).
Proof.
  simpl. split; [reflexivity|]. unfold connect_passage.
  set (m' := joined c room (manager w)).
  set (w1 := mkWorld m' (sent w) (pending w)).
  assert (Em : members_of room (manager w1) = members_of room (manager w) ++ [c])
    by apply members_joined.
  assert (El : List.length (members_of room m')
               = S (List.length (members_of room (manager w)))).
  { change m' with (manager w1). rewrite Em, length_app. simpl. lia. }
  rewrite El.
  set (msg := user_joined now room _).
  destruct (room_passage_own now send_json_raises schedule room msg (Some c) w1)
    as [_ Hown].
  rewrite Forall_forall in Hown.
  split; [apply Forall_forall; intros a Ha; now destruct (Hown a Ha)|].
  split.
  { intros Hin. apply in_map_iff in Hin. destruct Hin as [a [Ha Hin]].
    destruct (Hown a Hin) as [_ [He _]]. rewrite Ha in He. simpl in He.
    rewrite Nat.eqb_refl in He. discriminate. }
  split.
  - intros Hn x Hx Hne. rewrite <- Em in Hn.
    apply (room_passage_none_removed now send_json_raises schedule room msg
             (Some c) w1 x Hn).
    + rewrite Em. apply in_or_app. now left.
    + congruence.
  - intros Hs. rewrite <- Em in Hs.
    destruct (room_passage_steady now send_json_raises schedule room msg
                (Some c) w1 Hs) as [Ht _].
    rewrite Ht, Em, targets_app, targets_self. apply app_nil_r.
Qed.

(** With an empty queue and unique room names, the task the event loop
    runs after [disconnect] sends nothing but [user_left] for the first
    room that held the socket, with the number of members left in it;
    if no other task takes a socket out of that room's list during the
    sends, every member left gets it; and if the list is the same at
    every pass, the sends go to exactly the members left, in list order. *)
Theorem departure_is_announced_live (schedule : list (list event))
    (c : WebSocket) (w : World) (r : string)
    (l : list WebSocket) (rest : PyDict.dict (list WebSocket)) :
  pending w = [] ->
  NoDup (PyDict.keys (rooms (manager w))) ->
  rooms_holding c (rooms (manager w)) = (r, l) :: rest ->
  let w1 := disconnect now c w in
  let remaining := PyList.remove ws_eq_dec c l in
  let p := task_loop schedule w1 in
  members_of r (manager w1) = remaining /\
  tick_live now send_json_raises schedule w1 = cleanup now p /\
  Forall (fun a => content a = user_left now r (List.length remaining)) (own p) /\
  (none_removed remaining p ->
   forall x, In x remaining -> In x (map target (own p))) /\
  (steady remaining p -> map target (own p) = remaining).
Proof.
  intros Hp Hk Hh. simpl.
  assert (Hin : In (r, l) (rooms (manager w)) /\ In c l).
  { assert (H : In (r, l) (rooms_holding c (rooms (manager w))))
      by (rewrite Hh; now left).
    apply filter_In in H. destruct H as [H Hc]. split; [exact H|].
    now apply PyListFacts.contains_In in Hc. }
  destruct Hin as [Hin Hc].
  assert (Hm : members_of r (manager (disconnect now c w))
               = PyList.remove ws_eq_dec c l).
  { rewrite manager_disconnect, members_scrub. unfold members_of.
    now rewrite (@PyDictFacts.In_get _ r l _ Hk Hin). }
  split; [exact Hm|]. split; [reflexivity|].
  pose proof (pending_disconnect now c w) as Hq.
  rewrite Hp, Hh in Hq. simpl in Hq. unfold tick_passage. rewrite Hq.
  unfold left_task. cbn [fst snd]. cbv beta iota.
  rewrite <- (length_remove _ _ Hc).
  set (msg := user_left now r _).
  set (w2 := mkWorld _ _ _).
  assert (Hm2 : members_of r (manager w2) = PyList.remove ws_eq_dec c l)
    by exact Hm.
  destruct (room_passage_own now send_json_raises schedule r msg None w2)
    as [_ Hown].
  rewrite Forall_forall in Hown.
  split; [apply Forall_forall; intros a Ha; now destruct (Hown a Ha)|].
  split.
  - intros Hn x Hx. rewrite <- Hm2 in Hn.
    apply (room_passage_none_removed now send_json_raises schedule r msg
             None w2 x Hn); [now rewrite Hm2|discriminate].
  - intros Hs. rewrite <- Hm2 in Hs.
    destruct (room_passage_steady now send_json_raises schedule r msg
                None w2 Hs) as [Ht _].
    now rewrite Ht, Hm2, targets_none.
Qed.


(** A chat message: the handler broadcasts it to the sender's room with
    nobody excluded.  If no other task takes a socket out of the room's
    list during the sends, every member present when the message is
    handled gets it, the sender included; if the list is the same at
    every pass, the sends go to exactly the members, in list order. *)
Theorem chat_reaches_the_room_live (schedule : list (list event))
    (websocket : WebSocket) (room : string) (fields : PyDict.dict json)
    (w : World) :
  is_chat fields = true ->
  let snapshot := members_of room (manager w) in
  let p := room_loop schedule room (chat_message now dumps room fields) None w in
  handle_live schedule websocket room (JObj fields) w = (Returned, cleanup now p) /\
  Forall (fun a => content a = chat_message now dumps room fields) (own p) /\
  (none_removed snapshot p -> forall x, In x snapshot -> In x (map target (own p))) /\
  (steady snapshot p -> map target (own p) = snapshot).
Proof.
  intros Hc. simpl. unfold is_chat in Hc. rewrite Hc.
  set (msg := chat_message now dumps room fields).
  destruct (room_passage_own now send_json_raises schedule room msg None w)
    as [_ Hown].
  rewrite Forall_forall in Hown.
  split; [reflexivity|].
  split; [apply Forall_forall; intros a Ha; now destruct (Hown a Ha)|].
  split.
  - intros Hn x Hx.
    apply (room_passage_none_removed now send_json_raises schedule room msg
             None w x Hn Hx). discriminate.
  - intros Hs.
    destruct (room_passage_steady now send_json_raises schedule room msg
                None w Hs) as [Ht _].
    now rewrite Ht, targets_none.
Qed.

Lemma personal_target (m : message) (c : WebSocket) (w : World) :
  map target (new_attempts w (snd (send_personal_message now send_json_raises m c w)))
  = [c].
Proof.
  unfold send_personal_message, send_json.
  destruct (send_json_raises (sent w) c m); simpl.
  - unfold new_attempts. rewrite sent_disconnect. simpl.
    now rewrite skipn_length_app.
  - now rewrite new_attempts_app.
Qed.

(** A message that is not a chat message reaches other sockets only as
    a broadcast with the admin key: then the handler broadcasts to all,
    every send going to a socket that the pass found in
    [active_connections], and to each socket of [active_connections] in
    order if that list is the same at every pass.  In every other case
    the handler makes exactly one send, to the sender alone, and the
    other tasks play no part. *)
Theorem broadcast_needs_the_admin_key_live (schedule : list (list event))
    (websocket : WebSocket) (room : string) (fields : PyDict.dict json)
    (w : World) :
  is_chat fields = false ->
  (is_admin_broadcast fields = true ->
   let q := all_loop schedule (broadcast_message now dumps fields) w in
   handle_live schedule websocket room (JObj fields) w = (Returned, cleanup now q) /\
   Forall (fun a => exists l, In l (readings q) /\ In (target a) l) (own q) /\
   (steady (active_connections (manager w)) q ->
    map target (own q) = active_connections (manager w))) /\
  (is_admin_broadcast fields = false ->
   handle_live schedule websocket room (JObj fields) w
   = handle_message now send_json_raises dumps py_str websocket room (JObj fields) w /\
   map target
       (new_attempts w (snd (handle_live schedule websocket room (JObj fields) w)))
   = [websocket]).
Proof.
  intros Hc. unfold is_chat in Hc. unfold is_admin_broadcast.
  unfold handle_message_live, handle_message. rewrite Hc.
  destruct (is_str "ping" _) eqn:Ep.
  { rewrite (is_str_false_of_other "ping" "broadcast" _ ltac:(discriminate) Ep).
    simpl. split; [discriminate|]. intros _.
    split; [reflexivity|apply personal_target]. }
  destruct (is_str "get_stats" _) eqn:Eg.
  { rewrite (is_str_false_of_other "get_stats" "broadcast" _ ltac:(discriminate) Eg).
    simpl. split; [discriminate|]. intros _.
    split; [reflexivity|apply personal_target]. }
  destruct (is_str "broadcast" _) eqn:Eb; simpl.
  - destruct (is_str "admin123" _); simpl.
    + split; [intros _|discriminate].
      split; [reflexivity|].
      destruct (all_passage_own schedule (broadcast_message now dumps fields) w)
        as [_ H].
      split.
      * eapply Forall_impl; [|exact H]. now intros a [_ [H2 _]].
      * intros Hs. now destruct (all_passage_steady schedule _ w Hs).
    + split; [discriminate|]. intros _.
      split; [reflexivity|apply personal_target].
  - split; [discriminate|]. intros _.
    split; [reflexivity|apply personal_target].
Qed.

End LiveExtras.

Lemma steady_registry_among_bystanders :
  steady (active_connections (manager Scenario.three_in_general))
         (all_passage Scenario.clock (Scenario.dead Scenario.carol)
                      Race.bystanders Scenario.hello Scenario.three_in_general).
Proof. vm_compute. repeat constructor. Qed.

Lemma carol_once_among_bystanders :
  forall x,
    In x (failures (all_passage Scenario.clock (Scenario.dead Scenario.carol)
                                Race.bystanders Scenario.hello
                                Scenario.three_in_general)) ->
    at_most_once x
      (manager (after (all_passage Scenario.clock (Scenario.dead Scenario.carol)
                                   Race.bystanders Scenario.hello
                                   Scenario.three_in_general))).
Proof.
  intros x Hx. vm_compute in Hx. destruct Hx as [<-|[]]. split.
  - vm_compute. lia.
  - intros room members H. vm_compute in H. destruct H as [H|[]].
    injection H as <- <-. vm_compute. lia.
Qed.

Lemma broadcast_to_all_live_cleanup_witness :
  let w := Scenario.three_in_general in
  let q := all_passage Scenario.clock (Scenario.dead Scenario.carol)
                       Race.bystanders Scenario.hello w in
  steady (active_connections (manager w)) q /\
  (forall x, In x (failures q) -> at_most_once x (manager (after q))) /\
  map target (own q) = active_connections (manager w).
Proof.
  split; [exact steady_registry_among_bystanders|].
  split; [exact carol_once_among_bystanders|].
  exact (proj1 (broadcast_to_all_live_cleanup Scenario.clock
                  (Scenario.dead Scenario.carol) Race.bystanders
                  Scenario.hello Scenario.three_in_general
                  steady_registry_among_bystanders carol_once_among_bystanders)).
Defined.

Lemma departure_is_announced_live_witness :
  let w := Scenario.three_in_general in
  let w1 := disconnect Scenario.clock Scenario.bob w in
  pending w = [] /\
  NoDup (PyDict.keys (rooms (manager w))) /\
  rooms_holding Scenario.bob (rooms (manager w))
  = [("general"%string, [Scenario.alice; Scenario.bob; Scenario.carol])] /\
  members_of "general" (manager w1)
  = PyList.remove ws_eq_dec Scenario.bob
      [Scenario.alice; Scenario.bob; Scenario.carol].
Proof.
  assert (Hk : NoDup (PyDict.keys (rooms (manager Scenario.three_in_general)))).
  { vm_compute. repeat constructor. intros []. }
  split; [reflexivity|]. split; [exact Hk|]. split; [reflexivity|].
  exact (proj1 (departure_is_announced_live Scenario.clock Scenario.all_alive
                  Race.bystanders Scenario.bob Scenario.three_in_general
                  "general" [Scenario.alice; Scenario.bob; Scenario.carol] []
                  eq_refl Hk eq_refl)).
Defined.

Lemma chat_reaches_the_room_live_witness :
  let w := Scenario.three_in_general in
  let fields := [("type"%string, JStr "chat"); ("message"%string, JStr "hi")] in
  let p := room_passage Scenario.clock Scenario.all_alive Race.bystanders
             "general" (chat_message Scenario.clock Client.dumps "general" fields)
             None w in
  is_chat fields = true /\
  handle_message_live Scenario.clock Scenario.all_alive Client.dumps
    Client.py_str Race.bystanders Scenario.bob "general" (JObj fields) w
  = (Returned, cleanup Scenario.clock p).
Proof.
  split; [reflexivity|].
  exact (proj1 (chat_reaches_the_room_live Scenario.clock Scenario.all_alive
                  Client.dumps Client.py_str Race.bystanders Scenario.bob
                  "general"
                  [("type"%string, JStr "chat"); ("message"%string, JStr "hi")]
                  Scenario.three_in_general eq_refl)).
Defined.

Lemma broadcast_needs_the_admin_key_live_witness :
  let w := Scenario.three_in_general in
  let fields := [("type"%string, JStr "broadcast");
                 ("admin_key"%string, JStr "guess");
                 ("message"%string, JStr "all yours")] in
  is_chat fields = false /\
  is_admin_broadcast fields = false /\
  map target
      (new_attempts w
         (snd (handle_message_live Scenario.clock Scenario.all_alive
                 Client.dumps Client.py_str Race.alice_leaves Scenario.bob
                 "general" (JObj fields) w)))
  = [Scenario.bob].
Proof.
  split; [reflexivity|]. split; [reflexivity|].
  exact (proj2 (proj2 (broadcast_needs_the_admin_key_live Scenario.clock
                         Scenario.all_alive Client.dumps Client.py_str
                         Race.alice_leaves Scenario.bob "general"
                         [("type"%string, JStr "broadcast");
                          ("admin_key"%string, JStr "guess");
                          ("message"%string, JStr "all yours")]
                         Scenario.three_in_general eq_refl) eq_refl)).
Defined.
